(** * md2pdf.py: a shallow embedding and its checked properties

    The script converts a Markdown file to PDF inside a throw-away virtual
    environment.  This development embeds

    - the Python string operations the script relies on ([str.replace],
      [in], [str.count], [str.lower]) and the [pathlib] suffix functions;
    - the compose stage of the generated conversion script;
    - the orchestration code ([main], [create_virtual_environment],
      [install_dependencies], [convert_markdown_to_pdf],
      [cleanup_environment], [signal_handler]) as programs of a small
      state-and-exception monad over a model of the disk,

    and proves the properties of the specification against them. *)

From Stdlib Require Import Ascii String ZArith Lia.
From stdpp Require Import gmap strings list fin_maps.

Local Open Scope Z_scope.

(** ** Python [str] operations *)

Module Str.

(** [s.startswith(pat)] *)
Fixpoint startswith (s pat : string) : bool :=
  match pat, s with
  | EmptyString, _ => true
  | String _ _, EmptyString => false
  | String p pat', String c s' =>
      if Ascii.eqb p c then startswith s' pat' else false
  end.

(** [pat in s] *)
Fixpoint contains (pat s : string) : bool :=
  startswith s pat ||
  match s with
  | EmptyString => false
  | String _ s' => contains pat s'
  end.

(** [c in s] for a single character *)
Fixpoint has_char (c : ascii) (s : string) : bool :=
  match s with
  | EmptyString => false
  | String a s' => Ascii.eqb a c || has_char c s'
  end.

(** Left-to-right scan of [s.replace(old, new)] for a non-empty [old]:
    [skip] counts the characters of a matched occurrence that are still to
    be passed over, so matches never overlap and the inserted text is never
    scanned again. *)
Fixpoint replace_go (old new : string) (skip : nat) (s : string) : string :=
  match s with
  | EmptyString => EmptyString
  | String c s' =>
      match skip with
      | S k => replace_go old new k s'
      | O =>
          if startswith s old
          then new +:+ replace_go old new (String.length old - 1) s'
          else String c (replace_go old new 0 s')
      end
  end.

(** An empty [old] matches before every character and at the end. *)
Fixpoint intersperse (new s : string) : string :=
  match s with
  | EmptyString => new
  | String c s' => new +:+ String c (intersperse new s')
  end.

(** [s.replace(old, new)] *)
Definition replace (s old new : string) : string :=
  match old with
  | EmptyString => intersperse new s
  | String _ _ => replace_go old new 0 s
  end.

(** [s.count(pat)]: the number of non-overlapping occurrences. *)
Fixpoint count_go (pat : string) (skip : nat) (s : string) : nat :=
  match s with
  | EmptyString => O
  | String _ s' =>
      match skip with
      | S k => count_go pat k s'
      | O =>
          if startswith s pat
          then S (count_go pat (String.length pat - 1) s')
          else count_go pat 0 s'
      end
  end.

Definition count (s pat : string) : nat :=
  match pat with
  | EmptyString => S (String.length s)
  | String _ _ => count_go pat 0 s
  end.

(** [s.lower()] on the ASCII range; other bytes are left as they are. *)
Definition lower_char (c : ascii) : ascii :=
  let n := nat_of_ascii c in
  if ((65 <=? n) && (n <=? 90))%nat then ascii_of_nat (n + 32) else c.

Fixpoint lower (s : string) : string :=
  match s with
  | EmptyString => EmptyString
  | String c s' => String (lower_char c) (lower s')
  end.

(** [s.rfind(c)] for a single character: the last index, or [-1]. *)
Fixpoint rfind (c : ascii) (s : string) : Z :=
  match s with
  | EmptyString => -1
  | String a s' =>
      let r := rfind c s' in
      if 0 <=? r then r + 1 else if Ascii.eqb a c then 0 else -1
  end.

(** [s.split(sep)] for a single separator character. *)
Fixpoint split_go (sep : ascii) (cur : string) (s : string) : list string :=
  match s with
  | EmptyString => [String.rev cur]
  | String c s' =>
      if Ascii.eqb c sep
      then String.rev cur :: split_go sep EmptyString s'
      else split_go sep (String c cur) s'
  end.

Definition split (sep : ascii) (s : string) : list string :=
  split_go sep EmptyString s.

Definition nl : string := String "010"%char EmptyString.
Definition dq : string := String "034"%char EmptyString.

(** ["\n".join(lines)] *)
Definition join_lines (lines : list string) : string := String.concat nl lines.

End Str.

(** ** [pathlib]: parsed paths and suffix replacement *)

Module Pathlib.

(** A path is the list of its parts, as [PurePath.parts] gives them; an
    absolute path starts with the part ["/"]. *)
Definition keep_part (p : string) : bool :=
  negb (String.eqb p "") && negb (String.eqb p ".").

(** [Path(s)]: split at the separator, drop empty and ["."] parts. *)
Definition Path (s : string) : list string :=
  (if Str.startswith s "/" then ["/"] else []) ++
  List.filter keep_part (Str.split "/"%char s).

(** [p.name]: the final part, empty for the root and for [Path(".")]. *)
Definition name (p : list string) : string :=
  match last p with
  | Some n => if String.eqb n "/" then "" else n
  | None => ""
  end.

(** [p.suffix] (Python 3.9 to 3.12): from the last dot of the name, unless
    that dot is the first or the last character. *)
Definition suffix_of_name (n : string) : string :=
  let i := Str.rfind "."%char n in
  if (0 <? i) && (i <? Z.of_nat (String.length n) - 1)
  then substring (Z.to_nat i) (String.length n - Z.to_nat i) n
  else "".

Definition valid_suffix (suf : string) : bool :=
  negb (Str.has_char "/"%char suf) &&
  negb (negb (String.eqb suf "") && negb (Str.startswith suf ".")) &&
  negb (String.eqb suf ".").

(** [p.with_suffix(suf)]; [None] stands for the [ValueError] it raises on
    an invalid suffix or an empty name. *)
Definition with_suffix (p : list string) (suf : string) : option (list string) :=
  if negb (valid_suffix suf) then None
  else
    let n := name p in
    if String.eqb n "" then None
    else
      let old := suffix_of_name n in
      let n' :=
        if String.eqb old "" then n +:+ suf
        else substring 0 (String.length n - String.length old) n +:+ suf in
      Some (removelast p ++ [n']).

End Pathlib.

(** ** The compose stage of the generated conversion script *)

Module Compose.

(** Literal text of an f-string: a doubled brace stands for one brace.  A
    single brace would open a replacement field; the template text has
    none, and the function answers [None] there. *)
Fixpoint fstring_text (s : string) : option string :=
  match s with
  | EmptyString => Some EmptyString
  | String c s' =>
      if Ascii.eqb c "{"%char || Ascii.eqb c "}"%char then
        match s' with
        | String c' s'' =>
            if Ascii.eqb c c' then String c <$> fstring_text s'' else None
        | EmptyString => None
        end
      else String c <$> fstring_text s'
  end.

(** The template and the token as they are written inside the outer
    f-string of [convert_markdown_to_pdf]. *)
Definition html_template_src : string :=
  Str.join_lines
    [ "<!DOCTYPE html>";
      "<html lang=" +:+ Str.dq +:+ "en" +:+ Str.dq +:+ ">";
      "<head>";
      "    <meta charset=" +:+ Str.dq +:+ "UTF-8" +:+ Str.dq +:+ ">";
      "    <title>Document</title>";
      "</head>";
      "<body>";
      "{{{{content}}}}";
      "</body>";
      "</html>" ].

Definition placeholder_src : string := "{{{{content}}}}".

(** The same two strings as the generated script holds them. *)
Definition html_template : string :=
  default "" (fstring_text html_template_src).

Definition placeholder : string :=
  default "" (fstring_text placeholder_src).

(** [full_html = html_template.replace('{{content}}', html_content)] *)
Definition full_html (html_content : string) : string :=
  Str.replace html_template placeholder html_content.

(** The template text before and after the slot. *)
Definition template_head : string :=
  Str.join_lines
    [ "<!DOCTYPE html>";
      "<html lang=" +:+ Str.dq +:+ "en" +:+ Str.dq +:+ ">";
      "<head>";
      "    <meta charset=" +:+ Str.dq +:+ "UTF-8" +:+ Str.dq +:+ ">";
      "    <title>Document</title>";
      "</head>";
      "<body>";
      "" ].

Definition template_tail : string :=
  Str.join_lines [ ""; "</body>"; "</html>" ].

End Compose.

(** ** The world: disk, subprocess outcomes, user answers *)

(** What a regular file holds: plain bytes, or the conversion script that
    [convert_markdown_to_pdf] generates, which is determined by the two paths
    the f-string interpolates into it. *)
Inductive file_content :=
| Bytes (b : string)
| ConversionScript (md_path output_path : list string).

(** What a path leads to. *)
Inductive node :=
| File (content : file_content) (readable : bool)
| Dir
| Special.

Global Instance file_content_eq_dec : EqDecision file_content.
Proof. solve_decision. Defined.
Global Instance node_eq_dec : EqDecision node.
Proof. solve_decision. Defined.

Definition is_file (n : node) : bool :=
  match n with File _ _ => true | _ => false end.

Definition readable (n : node) : bool :=
  match n with File _ r => r | _ => true end.

(** Script configuration. *)
Definition VENV_DIR : string := ".md2pdf_venv".
Definition REQUIRED_PACKAGES : list string :=
  ["weasyprint>=60.0"; "markdown-it-py>=3.0.0"].

(** [under d p]: the path [p] is the directory [d] or lies below it. *)
Definition under (d : string) (p : list string) : bool :=
  match p with
  | x :: _ => String.eqb x d
  | [] => false
  end.

(** [shutil.rmtree(d)] when it succeeds: the directory and all below it go. *)
Definition rmtree (d : string) (m : gmap (list string) node) : gmap (list string) node :=
  filter (λ kv, under d kv.1 = false) m.

(** [sys.platform], as far as the script tells platforms apart. *)
Inductive platform := Linux | Darwin | Win32 | OtherPlatform.

(** [get_venv_executable(name)] *)
Definition get_venv_executable (pf : platform) (name : string) : list string :=
  match pf with
  | Win32 => [VENV_DIR; "Scripts"; name +:+ ".exe"]
  | _ => [VENV_DIR; "bin"; name]
  end.

(** The subprocesses the script starts:
    - [dpkg -s libpango-1.0-0];
    - [sys.executable -m venv VENV_DIR];
    - [pip_path install --upgrade pip];
    - [pip_path install package];
    - [python_path temp_script_path]. *)
Inductive command :=
| DpkgStatus
| VenvCreate
| PipUpgrade (pip_path : list string)
| PipInstall (pip_path : list string) (package : string)
| RunScript (python_path script : list string).

Global Instance command_eq_dec : EqDecision command.
Proof. solve_decision. Defined.

(** Why a program could not be started. *)
Inductive launch_error := NotFound | NotPermitted | OtherOSError.

(** How a [subprocess.run(cmd, check=True)] ends: exit status zero, a
    non-zero status, a failure to start the program, or SIGINT arriving
    while the parent waits. *)
Inductive proc_outcome :=
| ProcOk
| ProcNonzero
| ProcLaunch (e : launch_error)
| ProcSigint.

(** The two questions the script asks: "Do you want to overwrite it?" and
    "Do you want to continue anyway?". *)
Inductive prompt := AskOverwrite | AskContinue.

(** How an [input(...)] ends. *)
Inductive input_outcome :=
| Answer (response : string)
| InputEOF
| InputSigint.

(** The two places that call [shutil.rmtree(VENV_DIR)]:
    [create_virtual_environment] and [cleanup_environment]. *)
Inductive rm_site := RmStale | RmTeardown.

Global Instance prompt_eq_dec : EqDecision prompt.
Proof. solve_decision. Defined.
Global Instance rm_site_eq_dec : EqDecision rm_site.
Proof. solve_decision. Defined.

(** Everything one run takes from outside: arguments, platform, what the
    user types, how each subprocess and each directory removal ends, whether
    a failed environment creation leaves its directory, the name [tempfile]
    picks, and the bytes the renderer produces.

    SIGINT is delivered where the script blocks: while it waits for a
    subprocess or for an answer.  Creating, writing and unlinking the
    temporary script do not fail in this model; the removal of the runtime
    directory can, since the script provides for that. *)
Record scenario := {
  sc_argv : list string;
  sc_platform : platform;
  sc_input : prompt → input_outcome;
  sc_proc : command → proc_outcome;
  sc_dpkg_stdout : string;
  sc_venv_partial : bool;
  sc_rmtree_ok : rm_site → bool;
  sc_tmp : list string;
  sc_pdf : string
}.

(** What [python -m venv VENV_DIR] puts on disk.  Without [--clear] it adds
    to a directory that is already there. *)
Definition venv_skeleton (pf : platform) : gmap (list string) node :=
  <[ [VENV_DIR] := Dir ]>
  (<[ [VENV_DIR; "pyvenv.cfg"] := File (Bytes "") true ]>
  (<[ removelast (get_venv_executable pf "python") := Dir ]>
  (<[ get_venv_executable pf "python" := File (Bytes "") true ]>
  (<[ get_venv_executable pf "pip" := File (Bytes "") true ]> ∅)))).

Definition site_packages (package : string) : list string :=
  [VENV_DIR; "lib"; package].

(** The effect of a subprocess that ran to exit status zero. *)
Definition effect_ok (sc : scenario) (c : command)
    (m : gmap (list string) node) : gmap (list string) node :=
  match c with
  | DpkgStatus => m
  | VenvCreate => venv_skeleton (sc_platform sc) ∪ m
  | PipUpgrade _ => <[ site_packages "pip" := Dir ]> m
  | PipInstall _ package => <[ site_packages package := Dir ]> m
  | RunScript _ script =>
      match m !! script with
      | Some (File (ConversionScript _ output_path) _) =>
          <[ output_path := File (Bytes (sc_pdf sc)) true ]> m
      | _ => m
      end
  end.

(** The effect of a subprocess that failed or was interrupted: environment
    creation may leave its directory behind. *)
Definition effect_partial (sc : scenario) (c : command)
    (m : gmap (list string) node) : gmap (list string) node :=
  match c with
  | VenvCreate => if sc_venv_partial sc then <[ [VENV_DIR] := Dir ]> m else m
  | _ => m
  end.

(** ** Program state and the monad of the script *)

(** What the log records: a question asked, a subprocess started, a removal
    of the runtime directory attempted, the temporary script created or
    unlinked, the interrupt handler entered, the body of teardown entered,
    and the warning teardown prints when the removal failed. *)
Inductive event :=
| EvInput (q : prompt)
| EvRun (c : command)
| EvRmtree (site : rm_site) (ok : bool)
| EvTempCreated (p : list string)
| EvUnlink (p : list string)
| EvSigint
| EvTeardown
| EvTeardownWarning.

Global Instance event_eq_dec : EqDecision event.
Proof. solve_decision. Defined.

(** The two module-level globals, the disk, and the log of what happened. *)
Record state := {
  cleanup_required : bool;
  venv_created : bool;
  disk : gmap (list string) node;
  trace : list event
}.

(** The exceptions that occur. *)
Inductive exn :=
| FileNotFoundError
| PermissionError
| ValueError
| CalledProcessError
| OSError
| EOFError
| SystemExit (code : Z).

(** [SystemExit] derives from [BaseException] only: [except Exception] lets
    it pass. *)
Definition is_Exception (e : exn) : bool :=
  match e with SystemExit _ => false | _ => true end.

(** [isinstance(e, OSError)] *)
Definition is_OSError (e : exn) : bool :=
  match e with
  | FileNotFoundError | PermissionError | OSError => true
  | _ => false
  end.

Inductive result (A : Type) :=
| Return (a : A)
| Raise (e : exn).
Arguments Return {A} a.
Arguments Raise {A} e.

Definition Py (A : Type) : Type := state → result A * state.

Global Instance Py_ret : MRet Py := λ A a st, (Return a, st).

Global Instance Py_bind : MBind Py := λ A B k m st,
  match m st with
  | (Return a, st') => k a st'
  | (Raise e, st') => (Raise e, st')
  end.

Definition raise {A} (e : exn) : Py A := λ st, (Raise e, st).

(** [try: m  except ...: h] where [h e] is the clause that matches [e]. *)
Definition try_except {A} (m : Py A) (h : exn → option (Py A)) : Py A := λ st,
  match m st with
  | (Return a, st') => (Return a, st')
  | (Raise e, st') =>
      match h e with
      | Some k => k st'
      | None => (Raise e, st')
      end
  end.

(** [try: m  finally: fin] *)
Definition try_finally {A} (m : Py A) (fin : Py unit) : Py A := λ st,
  let '(r, st') := m st in
  match fin st' with
  | (Return _, st'') => (r, st'')
  | (Raise e, st'') => (Raise e, st'')
  end.

(** [for x in l: body(x)] *)
Fixpoint for_each {A} (l : list A) (body : A → Py unit) : Py unit :=
  match l with
  | [] => mret tt
  | x :: l' => body x ;; for_each l' body
  end.

Definition get_cleanup_required : Py bool := λ st, (Return (cleanup_required st), st).
Definition get_venv_created : Py bool := λ st, (Return (venv_created st), st).
Definition get_disk : Py (gmap (list string) node) := λ st, (Return (disk st), st).

(** State updates. *)
Definition with_cleanup_required (b : bool) (st : state) : state :=
  {| cleanup_required := b; venv_created := venv_created st;
     disk := disk st; trace := trace st |}.

Definition with_venv_created (b : bool) (st : state) : state :=
  {| cleanup_required := cleanup_required st; venv_created := b;
     disk := disk st; trace := trace st |}.

Definition with_disk (f : gmap (list string) node → gmap (list string) node)
    (st : state) : state :=
  {| cleanup_required := cleanup_required st; venv_created := venv_created st;
     disk := f (disk st); trace := trace st |}.

Definition add_event (e : event) (st : state) : state :=
  {| cleanup_required := cleanup_required st; venv_created := venv_created st;
     disk := disk st; trace := trace st ++ [e] |}.

Definition set_cleanup_required (b : bool) : Py unit := λ st,
  (Return tt, with_cleanup_required b st).

Definition set_venv_created (b : bool) : Py unit := λ st,
  (Return tt, with_venv_created b st).

Definition modify_disk (f : gmap (list string) node → gmap (list string) node) : Py unit := λ st,
  (Return tt, with_disk f st).

Definition log (e : event) : Py unit := λ st, (Return tt, add_event e st).

(** [sys.exit(code)] *)
Definition sys_exit {A} (code : Z) : Py A := raise (SystemExit code).

(** [os.path.exists(p)], [Path.exists()] *)
Definition path_exists (p : list string) : Py bool :=
  m ← get_disk; mret (bool_decide (is_Some (m !! p))).

(** [Path.stat()] *)
Definition path_stat (p : list string) : Py unit :=
  m ← get_disk;
  match m !! p with
  | Some _ => mret tt
  | None => raise FileNotFoundError
  end.

(** [os.unlink(p)] *)
Definition os_unlink (p : list string) : Py unit :=
  log (EvUnlink p) ;; modify_disk (delete p).

(** ** The script *)

Section Script.

Context (sc : scenario).

(** [shutil.rmtree(VENV_DIR)]: removes the tree, or raises [OSError] and
    leaves the disk as it is. *)
Definition shutil_rmtree (site : rm_site) : Py unit :=
  log (EvRmtree site (sc_rmtree_ok sc site)) ;;
  if sc_rmtree_ok sc site then modify_disk (rmtree VENV_DIR) else raise OSError.

(** [cleanup_environment()] *)
Definition cleanup_environment : Py unit :=
  cr ← get_cleanup_required;
  vc ← get_venv_created;
  if negb cr || negb vc then mret tt
  else
    log EvTeardown ;;
    ex ← path_exists [VENV_DIR];
    if (ex : bool) then
      try_except
        (shutil_rmtree RmTeardown)
        (λ e, if is_Exception e then Some (log EvTeardownWarning) else None)
    else mret tt.

(** [signal_handler(sig, frame)] *)
Definition signal_handler {A} : Py A :=
  log EvSigint ;;
  cleanup_environment ;;
  sys_exit 0.

Definition launch_exn (e : launch_error) : exn :=
  match e with
  | NotFound => FileNotFoundError
  | NotPermitted => PermissionError
  | OtherOSError => OSError
  end.

(** [subprocess.run(cmd, check=True)]; the answer is the captured
    standard output.  SIGINT while waiting runs the handler in the
    parent. *)
Definition subprocess_run (c : command) : Py string :=
  log (EvRun c) ;;
  match sc_proc sc c with
  | ProcOk => modify_disk (effect_ok sc c) ;; mret (sc_dpkg_stdout sc)
  | ProcNonzero => modify_disk (effect_partial sc c) ;; raise CalledProcessError
  | ProcLaunch e => raise (launch_exn e)
  | ProcSigint => modify_disk (effect_partial sc c) ;; signal_handler
  end.

(** [run_command(cmd, description)]: every clause reports and re-raises. *)
Definition run_command (c : command) : Py string :=
  try_except
    (subprocess_run c)
    (λ e,
      match e with
      | CalledProcessError => Some (raise e)
      | FileNotFoundError => Some (raise e)
      | SystemExit _ => None
      | _ => Some (raise e)
      end).

(** [input(prompt)] *)
Definition input (q : prompt) : Py string :=
  log (EvInput q) ;;
  match sc_input sc q with
  | Answer response => mret response
  | InputEOF => raise EOFError
  | InputSigint => signal_handler
  end.

(** [check_system_packages()] *)
Definition check_system_packages : Py unit :=
  confirmed ←
    match sc_platform sc with
    | Linux =>
        try_except
          (stdout ← run_command DpkgStatus;
           mret (Str.contains "Status: install ok installed" stdout))
          (λ e,
            match e with
            | CalledProcessError | FileNotFoundError => Some (mret false)
            | _ => None
            end)
    | _ => mret false
    end;
  if (confirmed : bool) then mret tt
  else
    response ← input AskContinue;
    if negb (String.eqb (Str.lower response) "y") then sys_exit 1 else mret tt.

(** [create_virtual_environment()] *)
Definition create_virtual_environment : Py unit :=
  ex ← path_exists [VENV_DIR];
  (if (ex : bool) then
     try_except
       (shutil_rmtree RmStale)
       (λ e, if is_OSError e then Some (raise e) else None)
   else mret tt) ;;
  run_command VenvCreate ;;
  set_venv_created true.

(** [install_dependencies()] *)
Definition install_dependencies : Py unit :=
  let pip_path := get_venv_executable (sc_platform sc) "pip" in
  run_command (PipUpgrade pip_path) ;;
  for_each REQUIRED_PACKAGES (λ package,
    run_command (PipInstall pip_path package) ;; mret tt).

(** [validate_markdown_file(filepath)] *)
Definition validate_markdown_file (filepath : string) : Py (list string) :=
  let path := Pathlib.Path filepath in
  m ← get_disk;
  match m !! path with
  | None => raise FileNotFoundError
  | Some n =>
      if negb (is_file n) then raise ValueError
      else if negb (readable n) then raise PermissionError
      else mret path
  end.

(** [tempfile.NamedTemporaryFile(mode='w', suffix='.py', delete=False)]
    followed by the write of the script text. *)
Definition named_temporary_file (content : file_content) : Py (list string) :=
  log (EvTempCreated (sc_tmp sc)) ;;
  modify_disk (insert (sc_tmp sc) (File content true)) ;;
  mret (sc_tmp sc).

(** [convert_markdown_to_pdf(md_path, output_path)] *)
Definition convert_markdown_to_pdf (md_path output_path : list string) : Py unit :=
  let python_path := get_venv_executable (sc_platform sc) "python" in
  temp_script_path ← named_temporary_file (ConversionScript md_path output_path);
  try_finally
    (run_command (RunScript python_path temp_script_path) ;; mret tt)
    (ex ← path_exists temp_script_path;
     if (ex : bool) then os_unlink temp_script_path else mret tt).

Definition is_help (a : string) : bool :=
  String.eqb a "-h" || String.eqb a "--help".

(** The [try] block of [main()]. *)
Definition main_body (md_file_arg : string) : Py unit :=
  md_path ← validate_markdown_file md_file_arg;
  output_pdf_path ←
    match Pathlib.with_suffix md_path ".pdf" with
    | Some p => mret p
    | None => raise ValueError
    end;
  ex ← path_exists output_pdf_path;
  (if (ex : bool) then
     response ← input AskOverwrite;
     if negb (String.eqb (Str.lower response) "y") then sys_exit 0 else mret tt
   else mret tt) ;;
  check_system_packages ;;
  set_cleanup_required true ;;
  create_virtual_environment ;;
  install_dependencies ;;
  convert_markdown_to_pdf md_path output_pdf_path ;;
  cleanup_environment ;;
  path_stat output_pdf_path.

(** The [except] clauses of [main()]: each reports, tears down, and exits
    with status 1. *)
Definition main_handler (e : exn) : option (Py unit) :=
  match e with
  | FileNotFoundError | PermissionError | ValueError =>
      Some (cleanup_environment ;; sys_exit 1)
  | CalledProcessError =>
      Some (cleanup_environment ;; sys_exit 1)
  | SystemExit _ => None
  | _ => Some (cleanup_environment ;; sys_exit 1)
  end.

(** [main()] *)
Definition main : Py unit :=
  match sc_argv sc with
  | [_; md_file_arg] =>
      if is_help md_file_arg then sys_exit 0
      else try_except (main_body md_file_arg) main_handler
  | _ => sys_exit 0
  end.

(** Provisioning as the orchestrator sequences it: steps 3 and 4. *)
Definition provision : Py unit :=
  create_virtual_environment ;; install_dependencies.

End Script.

(** The state in which the interpreter starts the script. *)
Definition initial_state (d : gmap (list string) node) : state :=
  {| cleanup_required := false; venv_created := false; disk := d; trace := [] |}.

(** The exit status the interpreter reports for what [main] ended with. *)
Definition exit_status {A} (r : result A) : Z :=
  match r with
  | Return _ => 0
  | Raise (SystemExit code) => code
  | Raise _ => 1
  end.

(** One run of the script: exit status and final state. *)
Definition run (sc : scenario) (d : gmap (list string) node) : Z * state :=
  let '(r, st) := main sc (initial_state d) in (exit_status r, st).

(** Scenarios and disks used in the examples below. *)
Definition all_ok : scenario :=
  {| sc_argv := ["md2pdf.py"; "report.md"];
     sc_platform := Linux;
     sc_input := λ _, Answer "y";
     sc_proc := λ _, ProcOk;
     sc_dpkg_stdout := "Package: libpango-1.0-0 Status: install ok installed";
     sc_venv_partial := true;
     sc_rmtree_ok := λ _, true;
     sc_tmp := ["/"; "tmp"; "tmpab12cd.py"];
     sc_pdf := "%PDF-1.7" |}.

Definition with_proc (sc : scenario) (f : command → proc_outcome) : scenario :=
  {| sc_argv := sc_argv sc; sc_platform := sc_platform sc;
     sc_input := sc_input sc; sc_proc := f;
     sc_dpkg_stdout := sc_dpkg_stdout sc;
     sc_venv_partial := sc_venv_partial sc;
     sc_rmtree_ok := sc_rmtree_ok sc; sc_tmp := sc_tmp sc;
     sc_pdf := sc_pdf sc |}.

Definition with_rmtree (sc : scenario) (f : rm_site → bool) : scenario :=
  {| sc_argv := sc_argv sc; sc_platform := sc_platform sc;
     sc_input := sc_input sc; sc_proc := sc_proc sc;
     sc_dpkg_stdout := sc_dpkg_stdout sc;
     sc_venv_partial := sc_venv_partial sc;
     sc_rmtree_ok := f; sc_tmp := sc_tmp sc;
     sc_pdf := sc_pdf sc |}.

Definition with_input (sc : scenario) (f : prompt → input_outcome) : scenario :=
  {| sc_argv := sc_argv sc; sc_platform := sc_platform sc;
     sc_input := f; sc_proc := sc_proc sc;
     sc_dpkg_stdout := sc_dpkg_stdout sc;
     sc_venv_partial := sc_venv_partial sc;
     sc_rmtree_ok := sc_rmtree_ok sc; sc_tmp := sc_tmp sc;
     sc_pdf := sc_pdf sc |}.

Definition with_platform (sc : scenario) (pf : platform) : scenario :=
  {| sc_argv := sc_argv sc; sc_platform := pf;
     sc_input := sc_input sc; sc_proc := sc_proc sc;
     sc_dpkg_stdout := sc_dpkg_stdout sc;
     sc_venv_partial := sc_venv_partial sc;
     sc_rmtree_ok := sc_rmtree_ok sc; sc_tmp := sc_tmp sc;
     sc_pdf := sc_pdf sc |}.

(** A working directory that holds the source document only. *)
Definition report_only : gmap (list string) node :=
  {[ ["report.md"] := File (Bytes "# Report") true ]}.

(** The same with an earlier output next to it. *)
Definition report_and_pdf : gmap (list string) node :=
  <[ ["report.pdf"] := File (Bytes "old pdf") true ]> report_only.

(** Does the command install a package? *)
Definition is_pip_install (c : command) : bool :=
  match c with PipInstall _ _ => true | _ => false end.

(** ** Assertions about the script *)

(** [triple P m Q]: from a state satisfying [P], the program [m] ends with
    a result and a state satisfying [Q].  Every program of [Py] is a total
    function, so it always ends. *)
Definition triple {A} (P : state → Prop) (m : Py A)
    (Q : result A → state → Prop) : Prop :=
  ∀ st, P st → Q (m st).1 (m st).2.

(** The usual shape of a postcondition: [I] when the program returns or
    raises an [Exception], [X e] when it leaves with [SystemExit]. *)
Definition outcome {A} (I : state → Prop) (X : exn → state → Prop)
    (r : result A) (st : state) : Prop :=
  match r with
  | Return _ => I st
  | Raise e => if is_Exception e then I st else X e st
  end.

(** Events of the pipeline steps themselves, as opposed to prompts and the
    interrupt. *)
Definition plain (e : event) : bool :=
  match e with
  | EvSigint | EvInput _ => false
  | _ => true
  end.

(** Events that teardown and the removal of the temporary script log. *)
Definition quiet (e : event) : bool :=
  match e with
  | EvTeardown | EvRmtree RmTeardown _ | EvTeardownWarning | EvUnlink _ => true
  | _ => false
  end.

(** The state [cleanup_environment()] leaves, in closed form. *)
Definition teardown_state (sc : scenario) (st : state) : state :=
  if cleanup_required st && venv_created st then
    let st1 := add_event EvTeardown st in
    if bool_decide (is_Some (disk st !! [VENV_DIR])) then
      if sc_rmtree_ok sc RmTeardown
      then with_disk (rmtree VENV_DIR) (add_event (EvRmtree RmTeardown true) st1)
      else add_event EvTeardownWarning (add_event (EvRmtree RmTeardown false) st1)
    else st1
  else st.

(** The state the interrupt handler leaves. *)
Definition handler_state (sc : scenario) (st : state) : state :=
  teardown_state sc (add_event EvSigint st).

(** The removal of the temporary script in the [finally] clause. *)
Definition unlink_state (p : list string) (st : state) : state :=
  if bool_decide (is_Some (disk st !! p))
  then with_disk (delete p) (add_event (EvUnlink p) st)
  else st.

(** The runtime directory is gone: neither it nor anything below it is on
    the disk. *)
Definition venv_absent (m : gmap (list string) node) : Prop :=
  ∀ p, under VENV_DIR p = true → m !! p = None.

(** The part of a disk at and below the runtime directory. *)
Definition venv_tree (m : gmap (list string) node) : gmap (list string) node :=
  filter (λ kv, under VENV_DIR kv.1 = true) m.

(** After an interrupt nothing but teardown and the removal of the temporary
    script happens, and teardown runs when it is owed. *)
Definition interrupted_quietly (st : state) : Prop :=
  ∃ pre post,
    trace st = pre ++ EvSigint :: post ∧
    (EvSigint ∉ pre) ∧
    Forall (λ e, quiet e = true) post ∧
    (cleanup_required st = true → venv_created st = true → EvTeardown ∈ post).

(** What the [try] block of [main] establishes, for an invariant [I0] of
    the steps before the guard is armed, an invariant [I1] of the steps
    after, a condition [X] on leaving with [SystemExit], and a condition [R]
    on the state after the final teardown. *)
Definition body_post (I0 I1 : state → Prop) (X : exn → state → Prop)
    (R : state → Prop) (r : result unit) (st : state) : Prop :=
  match r with
  | Return _ => I1 st ∧ R st
  | Raise e => if is_Exception e then I0 st ∨ I1 st else X e st
  end.

(** What [main] establishes: it returns after the final teardown, or leaves
    with [SystemExit]. *)
Definition main_post (X : exn → state → Prop) (R : state → Prop)
    (r : result unit) (st : state) : Prop :=
  match r with
  | Return _ => R st
  | Raise e => is_Exception e = false ∧ X e st
  end.

(** Invariants and exit conditions used for the interrupt path. *)
Definition no_sigint (st : state) : Prop := EvSigint ∉ trace st.

Definition on_sigint (e : exn) (st : state) : Prop :=
  EvSigint ∈ trace st → e = SystemExit 0 ∧ interrupted_quietly st.

(** Scenario: SIGINT arrives while a package is being installed. *)
Definition sigint_during_install : scenario :=
  with_proc all_ok (λ c, if is_pip_install c then ProcSigint else ProcOk).

(** Invariants and exit condition used for teardown after creation. *)
Definition not_created (st : state) : Prop := venv_created st = false.

Definition armed (st : state) : Prop := cleanup_required st = true.

Definition torn_down (st : state) : Prop :=
  venv_created st = true → disk st !! [VENV_DIR] = None.

(** Scenario: the installation of a package ends with a non-zero status. *)
Definition install_fails : scenario :=
  with_proc all_ok (λ c, if is_pip_install c then ProcNonzero else ProcOk).

(** Scenario: the same, and the removal of the runtime directory fails. *)
Definition install_fails_rmtree_fails : scenario :=
  with_rmtree install_fails (λ _, false).

(** Scenario: the creation of the environment fails, leaving its directory. *)
Definition creation_fails : scenario :=
  with_proc all_ok (λ c, match c with VenvCreate => ProcNonzero | _ => ProcOk end).

(** Invariants and exit condition used for the advisory prompt: the
    question has not been asked, and nothing has been touched. *)
Definition not_asked (st : state) : Prop := EvInput AskContinue ∉ trace st.

Definition untouched (d : gmap (list string) node) (st : state) : Prop :=
  disk st = d ∧ cleanup_required st = false ∧ venv_created st = false.

Definition on_decline (d : gmap (list string) node) (e : exn) (st : state) : Prop :=
  EvInput AskContinue ∈ trace st → e = SystemExit 1 ∧ untouched d st.

(** Scenario: on macOS, where the advisory check always asks, the user
    answers no. *)
Definition declines_on_darwin : scenario :=
  with_platform (with_input all_ok (λ _, Answer "n")) Darwin.

(** Scenario: the user answers no to every question. *)
Definition answers_no : scenario := with_input all_ok (λ _, Answer "n").

(** A state in which teardown is owed: the guard is armed, the environment
    was created and is on disk. *)
Definition armed_with_venv : state :=
  {| cleanup_required := true; venv_created := true;
     disk := venv_skeleton Linux ∪ report_only; trace := [] |}.

(** The events a program added to the log. *)
Definition new_events (st st' : state) : list event :=
  drop (length (trace st)) (trace st').


Definition is_run (e : event) : bool :=
  match e with EvRun _ => true | _ => false end.

(** What a successful provisioning leaves at and below the runtime
    directory: the skeleton, the upgraded package manager, and the packages
    of the manifest. *)
Definition provisioned_tree (pf : platform) : gmap (list string) node :=
  foldl (λ m package, <[ site_packages package := Dir ]> m)
        (<[ site_packages "pip" := Dir ]> (venv_skeleton pf))
        REQUIRED_PACKAGES.

(** The subprocesses one provisioning starts, in order. *)
Definition provision_events (pf : platform) : list event :=
  EvRun VenvCreate ::
  EvRun (PipUpgrade (get_venv_executable pf "pip")) ::
  map (λ package, EvRun (PipInstall (get_venv_executable pf "pip") package))
      REQUIRED_PACKAGES.

(** Scenario: the nested conversion process ends with a non-zero status. *)
Definition conversion_fails : scenario :=
  with_proc all_ok (λ c, match c with RunScript _ _ => ProcNonzero | _ => ProcOk end).

(** Scenario: SIGINT arrives while the nested conversion process runs. *)
Definition sigint_during_conversion : scenario :=
  with_proc all_ok (λ c, match c with RunScript _ _ => ProcSigint | _ => ProcOk end).

(** ** Further assertions *)

(** [keeps I m]: the program [m] preserves [I], however it ends. *)
Definition keeps {A} (I : state → Prop) (m : Py A) : Prop :=
  triple I m (λ _, I).

(** The disk holds [v] at the path [p]. *)
Definition agrees_at (p : list string) (v : option node) (st : state) : Prop :=
  disk st !! p = v.

(** Does the command run the conversion script? *)
Definition is_run_script (c : command) : bool :=
  match c with RunScript _ _ => true | _ => false end.

(** Does the command end with exit status zero? *)
Definition proc_ok (sc : scenario) (c : command) : bool :=
  match sc_proc sc c with ProcOk => true | _ => false end.

(** The subprocesses [install_dependencies] starts, in order. *)
Definition install_commands (pf : platform) : list command :=
  PipUpgrade (get_venv_executable pf "pip") ::
  map (PipInstall (get_venv_executable pf "pip")) REQUIRED_PACKAGES.

(** The commands of a sequence that get started when each is started only
    after its predecessor ended with status zero. *)
Fixpoint until_first_failure (sc : scenario) (cs : list command) : list command :=
  match cs with
  | [] => []
  | c :: cs' => c :: (if proc_ok sc c then until_first_failure sc cs' else [])
  end.

(** Does the advisory check get as far as its question?  On Linux it does
    when [dpkg] ran without confirming the library, ended with a non-zero
    status, or was not found; elsewhere it always does. *)
Definition advisory_asks (sc : scenario) : bool :=
  match sc_platform sc with
  | Linux =>
      match sc_proc sc DpkgStatus with
      | ProcOk => negb (Str.contains "Status: install ok installed" (sc_dpkg_stdout sc))
      | ProcNonzero | ProcLaunch NotFound => true
      | ProcLaunch _ | ProcSigint => false
      end
  | _ => true
  end.

(** Exit with one of the two statuses the script uses. *)
Definition exits_zero_or_one (e : exn) : Prop :=
  e = SystemExit 0 ∨ e = SystemExit 1.


(** A working directory with the source document and a runtime directory
    left over from an earlier run. *)
Definition report_and_stale_venv : gmap (list string) node :=
  <[ [VENV_DIR] := Dir ]> (<[ [VENV_DIR; "old"] := Dir ]> report_only).

(** * Properties *)

(** ** Strings *)

Section StrFacts.

Lemma startswith_app_sep pat x c y :
  Str.has_char c pat = false →
  Str.startswith (x +:+ String c y) pat = Str.startswith x pat.
Proof.
  revert x. induction pat as [|p pat IH]; intros x Hc; [by destruct x|].
  simpl in Hc. apply orb_false_elim in Hc as [Hpc Hrest].
  destruct x as [|a x]; simpl.
  - by rewrite Hpc.
  - destruct (Ascii.eqb p a); [by apply IH | done].
Qed.

(** A pattern without the character [c] cannot straddle an occurrence of
    [c]: it lies to the left or to the right of it. *)
Lemma contains_app_sep pat x c y :
  Str.has_char c pat = false →
  Str.contains pat (x +:+ String c y) = Str.contains pat x || Str.contains pat y.
Proof.
  intros Hc. induction x as [|a x IH].
  - change (Str.contains pat ("" +:+ String c y))
      with (Str.startswith ("" +:+ String c y) pat || Str.contains pat y).
    rewrite startswith_app_sep by done. by destruct pat.
  - change (Str.contains pat (String a x +:+ String c y))
      with (Str.startswith (String a x +:+ String c y) pat
            || Str.contains pat (x +:+ String c y)).
    rewrite startswith_app_sep, IH by done.
    simpl. by rewrite orb_assoc.
Qed.

Lemma startswith_app s r : Str.startswith (s +:+ r) s = true.
Proof.
  induction s as [|a s IH]; simpl; [by destruct r|].
  by rewrite Ascii.eqb_refl.
Qed.

Lemma contains_unfold pat s :
  Str.contains pat s =
  Str.startswith s pat ||
  match s with EmptyString => false | String _ s' => Str.contains pat s' end.
Proof. by destruct s. Qed.

Lemma contains_here pat s : Str.startswith s pat = true → Str.contains pat s = true.
Proof. intros H. by rewrite contains_unfold, H. Qed.

Lemma contains_app_r pat a b :
  Str.contains pat b = true → Str.contains pat (a +:+ b) = true.
Proof.
  intros H. induction a as [|c a IH]; [done|].
  change (Str.contains pat (String c a +:+ b))
    with (Str.startswith (String c a +:+ b) pat || Str.contains pat (a +:+ b)).
  rewrite IH. apply orb_true_r.
Qed.

Lemma lower_is_y r :
  Str.lower r = "y" ↔ r = "y" ∨ r = "Y".
Proof.
  split.
  - destruct r as [|c [|c' r]]; simpl; try done.
    intros H. injection H as H.
    destruct c as [[] [] [] [] [] [] [] []]; vm_compute in H; try done; auto.
  - by intros [-> | ->].
Qed.

Lemma declined_iff r :
  negb (String.eqb (Str.lower r) "y") = true ↔ r ≠ "y" ∧ r ≠ "Y".
Proof.
  rewrite negb_true_iff, String.eqb_neq, lower_is_y. tauto.
Qed.

Lemma string_app_cons c a b : String c a +:+ b = String c (a +:+ b).
Proof. reflexivity. Qed.

Lemma string_app_nil_l b : "" +:+ b = b.
Proof. reflexivity. Qed.

Lemma string_length_app a b :
  String.length (a +:+ b) = (String.length a + String.length b)%nat.
Proof.
  induction a as [|c a IH]; [done|].
  rewrite string_app_cons. simpl. by rewrite IH.
Qed.

Lemma substring_whole b : substring 0 (String.length b) b = b.
Proof. induction b as [|c b IH]; simpl; [done | by rewrite IH]. Qed.

Lemma substring_app_head a b :
  substring 0 (String.length a) (a +:+ b) = a.
Proof.
  induction a as [|c a IH].
  - rewrite string_app_nil_l. by destruct b.
  - rewrite string_app_cons. simpl. by rewrite IH.
Qed.

Lemma substring_app_tail a b :
  substring (String.length a) (String.length b) (a +:+ b) = b.
Proof.
  induction a as [|c a IH].
  - rewrite string_app_nil_l. apply substring_whole.
  - rewrite string_app_cons. simpl. apply IH.
Qed.

Lemma rfind_absent c s : Str.has_char c s = false → Str.rfind c s = -1.
Proof.
  induction s as [|a s IH]; simpl; [done|].
  intros [Ha Hs]%orb_false_elim. by rewrite IH, Ha.
Qed.

Lemma rfind_last_sep c stem ext :
  Str.has_char c ext = false →
  Str.rfind c (stem +:+ String c ext) = Z.of_nat (String.length stem).
Proof.
  intros Hext. induction stem as [|a stem IH].
  - simpl. by rewrite rfind_absent, Ascii.eqb_refl.
  - change (Str.rfind c (String a stem +:+ String c ext))
      with (let r := Str.rfind c (stem +:+ String c ext) in
            if 0 <=? r then r + 1 else if Ascii.eqb a c then 0 else -1).
    rewrite IH. simpl String.length. cbv zeta.
    destruct (Z.leb_spec 0 (Z.of_nat (String.length stem))); lia.
Qed.

End StrFacts.

(** ** The compose stage *)

Section ComposeFacts.

(** The f-string layer materialises the token with two braces on each
    side, in the template and in the call to [replace] alike. *)
Lemma placeholder_materialised :
  Compose.fstring_text Compose.placeholder_src = Some "{{content}}" ∧
  Compose.fstring_text Compose.html_template_src =
    Some (Compose.template_head +:+ "{{content}}" +:+ Compose.template_tail).
Proof. split; reflexivity. Qed.

Lemma template_has_one_slot :
  Str.count Compose.html_template Compose.placeholder = 1%nat.
Proof. reflexivity. Qed.

(** [replace] never looks into the text it inserts: the result is the
    template with the slot filled, for any content at all. *)
Lemma full_html_shape html_content :
  Compose.full_html html_content =
  Compose.template_head +:+ html_content +:+ Compose.template_tail.
Proof. vm_compute. reflexivity. Qed.

Lemma full_html_split html_content :
  ∃ head tail,
    Compose.template_head = head +:+ Str.nl ∧
    Compose.template_tail = Str.nl +:+ tail ∧
    Str.contains Compose.placeholder head = false ∧
    Str.contains Compose.placeholder tail = false ∧
    Compose.full_html html_content =
      head +:+ String "010" (html_content +:+ String "010" tail).
Proof.
  exists (substring 0 (String.length Compose.template_head - 1)
            Compose.template_head),
         (substring 1 (String.length Compose.template_tail - 1)
            Compose.template_tail).
  repeat split; vm_compute; reflexivity.
Qed.

Lemma full_html_no_placeholder html_content :
  Str.contains Compose.placeholder html_content = false →
  Str.contains Compose.placeholder (Compose.full_html html_content) = false.
Proof.
  intros Hfree.
  destruct (full_html_split html_content) as (head & tail & _ & _ & Hh & Ht & ->).
  rewrite !contains_app_sep by reflexivity.
  by rewrite Hh, Ht, Hfree.
Qed.

End ComposeFacts.

(** C3 (as amended).  For every intermediate HTML without the placeholder
    token, the compose stage yields the template with its one slot filled by
    that HTML: the text before and after the slot is the template's own,
    whatever braces the HTML holds; the HTML is in the output; and no
    placeholder token is left. *)
Theorem compose_fills_the_slot (html_content : string) :
  Str.contains Compose.placeholder html_content = false →
  Compose.full_html html_content =
    Compose.template_head +:+ html_content +:+ Compose.template_tail
  ∧ Str.contains html_content (Compose.full_html html_content) = true
  ∧ Str.contains Compose.placeholder (Compose.full_html html_content) = false
  ∧ Str.count Compose.html_template Compose.placeholder = 1%nat.
Proof.
  intros Hfree. split; [apply full_html_shape|].
  split; [|split; [by apply full_html_no_placeholder | reflexivity]].
  rewrite full_html_shape.
  apply contains_app_r, contains_here, startswith_app.
Qed.

Lemma compose_fills_the_slot_witness :
  Str.contains Compose.placeholder "<p>{x} and }}</p>" = false ∧
  Compose.full_html "<p>{x} and }}</p>" =
    Compose.template_head +:+ "<p>{x} and }}</p>" +:+ Compose.template_tail.
Proof.
  split; [reflexivity|].
  apply (compose_fills_the_slot "<p>{x} and }}</p>"). reflexivity.
Defined.

(** C3 as stated fails: HTML that also occurs in the template text is in
    the output twice. *)
Lemma compose_html_occurs_twice :
  Str.contains Compose.placeholder "<title>Document</title>" = false ∧
  Str.count (Compose.full_html "<title>Document</title>")
            "<title>Document</title>" = 2%nat.
Proof. split; reflexivity. Qed.

(** ** Output path derivation *)

Section PathFacts.

Lemma suffix_of_name_split stem ext :
  stem ≠ "" → ext ≠ "" → Str.has_char "." ext = false →
  Pathlib.suffix_of_name (stem +:+ String "." ext) = String "." ext.
Proof.
  intros Hstem Hext Hdot. unfold Pathlib.suffix_of_name.
  rewrite rfind_last_sep by done.
  rewrite string_length_app. simpl String.length.
  assert (0 < String.length stem)%nat by (destruct stem; simpl; [done | lia]).
  assert (0 < String.length ext)%nat by (destruct ext; simpl; [done | lia]).
  destruct (Z.ltb_spec 0 (Z.of_nat (String.length stem))); [|lia].
  destruct (Z.ltb_spec (Z.of_nat (String.length stem))
             (Z.of_nat (String.length stem + S (String.length ext)) - 1)); [|lia].
  simpl. rewrite Nat2Z.id.
  replace (String.length stem + S (String.length ext) - String.length stem)%nat
    with (String.length (String "." ext)) by (simpl; lia).
  apply substring_app_tail.
Qed.

Lemma with_suffix_split dir stem ext :
  stem ≠ "" → ext ≠ "" → Str.has_char "." ext = false →
  Pathlib.with_suffix (dir ++ [stem +:+ String "." ext]) ".pdf" =
  Some (dir ++ [stem +:+ ".pdf"]).
Proof.
  intros Hstem Hext Hdot. unfold Pathlib.with_suffix, Pathlib.name.
  change (negb (Pathlib.valid_suffix ".pdf")) with false. cbv iota.
  rewrite last_snoc, removelast_last.
  assert (String.eqb (stem +:+ String "." ext) "/" = false) as ->.
  { apply String.eqb_neq. intros Heq.
    apply (f_equal String.length) in Heq. rewrite string_length_app in Heq.
    destruct stem, ext; simpl in *; try done; lia. }
  assert (String.eqb (stem +:+ String "." ext) "" = false) as ->.
  { apply String.eqb_neq. by destruct stem. }
  rewrite suffix_of_name_split by done. simpl String.eqb. cbv iota.
  rewrite string_length_app.
  replace (String.length stem + String.length (String "." ext)
           - String.length (String "." ext))%nat
    with (String.length stem) by lia.
  by rewrite substring_app_head.
Qed.

End PathFacts.

(** C8.  The output path is the source path with its extension replaced by
    [.pdf]: in general for a name [stem.ext], and in particular
    [report.md] gives [report.pdf] and [notes.markdown] gives
    [notes.pdf]. *)
Theorem output_path_derivation (dir : list string) (stem ext : string) :
  stem ≠ "" → ext ≠ "" → Str.has_char "." ext = false →
  Pathlib.with_suffix (dir ++ [stem +:+ "." +:+ ext]) ".pdf" =
    Some (dir ++ [stem +:+ ".pdf"])
  ∧ Pathlib.with_suffix (Pathlib.Path "report.md") ".pdf" =
    Some (Pathlib.Path "report.pdf")
  ∧ Pathlib.with_suffix (Pathlib.Path "notes.markdown") ".pdf" =
    Some (Pathlib.Path "notes.pdf").
Proof.
  intros Hstem Hext Hdot. split; [by apply with_suffix_split|].
  split; reflexivity.
Qed.

Lemma output_path_derivation_witness :
  Pathlib.with_suffix (["/"; "home"; "docs"] ++ ["thesis" +:+ "." +:+ "md"]) ".pdf" =
  Some (["/"; "home"; "docs"] ++ ["thesis" +:+ ".pdf"]).
Proof.
  apply (output_path_derivation ["/"; "home"; "docs"] "thesis" "md"); done.
Defined.

(** ** Reasoning rules for the script monad *)

(** Unfold the monad and its primitive operations; the disk operations and
    the state updates stay folded. *)
Ltac py_exec :=
  cbv beta iota zeta delta
    [mbind mret Py_bind Py_ret raise sys_exit try_except try_finally
     get_cleanup_required get_venv_created get_disk set_cleanup_required
     set_venv_created modify_disk log path_exists path_stat os_unlink
     shutil_rmtree named_temporary_file fst snd].

Section Rules.

Context {A B : Type}.
Implicit Types (P : state → Prop) (I : state → Prop) (X : exn → state → Prop).

Lemma bind_unfold (m : Py A) (k : A → Py B) st :
  (m ≫= k) st =
  match m st with
  | (Return a, st') => k a st'
  | (Raise e, st') => (Raise e, st')
  end.
Proof. reflexivity. Qed.

Lemma bind_return (m : Py A) (k : A → Py B) st a st' :
  m st = (Return a, st') → (m ≫= k) st = k a st'.
Proof. intros H. by rewrite bind_unfold, H. Qed.

Lemma bind_raise (m : Py A) (k : A → Py B) st e st' :
  m st = (Raise e, st') → (m ≫= k) st = (Raise e, st').
Proof. intros H. by rewrite bind_unfold, H. Qed.

Lemma triple_bind P (m : Py A) (k : A → Py B) (M : result A → state → Prop)
    (Q : result B → state → Prop) :
  triple P m M →
  (∀ a, triple (M (Return a)) (k a) Q) →
  (∀ e st, M (Raise e) st → Q (Raise e) st) →
  triple P (m ≫= k) Q.
Proof.
  intros Hm Hk He st Hst. specialize (Hm st Hst). rewrite bind_unfold.
  destruct (m st) as [[a|e] st']; simpl in *; [by apply Hk | by apply He].
Qed.

Lemma spec_bind I X (m : Py A) (k : A → Py B) :
  triple I m (outcome I X) →
  (∀ a, triple I (k a) (outcome I X)) →
  triple I (m ≫= k) (outcome I X).
Proof.
  intros Hm Hk. eapply triple_bind; [exact Hm | exact Hk | done].
Qed.

Lemma spec_ret I X (a : A) : triple I (mret a) (outcome I X).
Proof. by intros st Hst. Qed.

Lemma spec_raise I X (e : exn) :
  is_Exception e = true → triple I (raise (A:=A) e) (outcome I X).
Proof. intros He st Hst. simpl. by rewrite He. Qed.

Lemma spec_exit I X (code : Z) :
  (∀ st, I st → X (SystemExit code) st) →
  triple I (sys_exit (A:=A) code) (outcome I X).
Proof. intros HX st Hst. by apply HX. Qed.

(** A [try] whose clauses catch instances of [Exception] only. *)
Lemma spec_try_except I X (m : Py A) (h : exn → option (Py A)) :
  triple I m (outcome I X) →
  (∀ e k, h e = Some k → is_Exception e = true ∧ triple I k (outcome I X)) →
  triple I (try_except m h) (outcome I X).
Proof.
  intros Hm Hh st Hst. specialize (Hm st Hst). unfold try_except.
  destruct (m st) as [[a|e] st']; simpl in *; [done|].
  destruct (h e) as [k|] eqn:Hk; [|done].
  destruct (Hh e k Hk) as [He Hspec]. rewrite He in Hm. by apply Hspec.
Qed.

End Rules.

Section MoreRules.

Implicit Types (I : state → Prop) (X : exn → state → Prop).

Lemma spec_for_each {A} I X (l : list A) (body : A → Py unit) :
  (∀ x, triple I (body x) (outcome I X)) →
  triple I (for_each l body) (outcome I X).
Proof.
  intros Hbody. induction l as [|x l IH]; simpl.
  - apply spec_ret.
  - apply spec_bind; [apply Hbody | intros _; apply IH].
Qed.

Lemma spec_path_exists I X p : triple I (path_exists p) (outcome I X).
Proof. by intros st Hst. Qed.

End MoreRules.

(** ** Teardown and the interrupt handler in closed form *)

Section Teardown.

Context (sc : scenario).

Lemma cleanup_environment_eq st :
  cleanup_environment sc st = (Return tt, teardown_state sc st).
Proof.
  unfold cleanup_environment, teardown_state. py_exec.
  destruct (cleanup_required st), (venv_created st); simpl; try done.
  destruct (bool_decide (is_Some (disk st !! [VENV_DIR]))); [|done].
  by destruct (sc_rmtree_ok sc RmTeardown).
Qed.

Lemma signal_handler_eq {A} st :
  signal_handler (A:=A) sc st = (Raise (SystemExit 0), handler_state sc st).
Proof.
  unfold signal_handler, handler_state.
  rewrite bind_unfold. simpl. rewrite bind_unfold.
  by rewrite cleanup_environment_eq.
Qed.

Lemma teardown_state_flags st :
  cleanup_required (teardown_state sc st) = cleanup_required st ∧
  venv_created (teardown_state sc st) = venv_created st.
Proof.
  unfold teardown_state.
  destruct (cleanup_required st && venv_created st); [|done].
  destruct (bool_decide (is_Some (disk st !! [VENV_DIR]))); [|done].
  by destruct (sc_rmtree_ok sc RmTeardown).
Qed.

Lemma teardown_state_idle st :
  cleanup_required st && venv_created st = false →
  teardown_state sc st = st.
Proof. intros H. unfold teardown_state. by rewrite H. Qed.

Lemma teardown_state_trace st :
  ∃ evs,
    trace (teardown_state sc st) = trace st ++ evs ∧
    Forall (λ e, quiet e = true) evs ∧
    (EvTeardown ∈ evs ↔ cleanup_required st = true ∧ venv_created st = true).
Proof.
  unfold teardown_state.
  destruct (cleanup_required st) eqn:Hc, (venv_created st) eqn:Hv; simpl.
  - destruct (bool_decide (is_Some (disk st !! [VENV_DIR])));
      [destruct (sc_rmtree_ok sc RmTeardown)|];
      simpl; rewrite <- ?app_assoc; simpl;
      eexists; (split_and!; [reflexivity | by repeat constructor |]);
      (split; [done | intros _; apply list_elem_of_here]).
  - exists []. rewrite app_nil_r. split_and!; [done | done |].
    split; [by intros ?%elem_of_nil | by intros [_ ?]].
  - exists []. rewrite app_nil_r. split_and!; [done | done |].
    split; [by intros ?%elem_of_nil | by intros [? _]].
  - exists []. rewrite app_nil_r. split_and!; [done | done |].
    split; [by intros ?%elem_of_nil | by intros [? _]].
Qed.

Lemma rmtree_absent m : venv_absent (rmtree VENV_DIR m).
Proof.
  intros p Hp. unfold rmtree. apply map_lookup_filter_None. right.
  intros x _. simpl. by rewrite Hp.
Qed.

End Teardown.

(** ** Invariants of the pipeline steps

    The lemmas of this section hold for every invariant [I] that the
    pipeline's own events and disk updates preserve, and every condition [X]
    that the interrupt handler establishes from [I]. *)

Section Discipline.

Context (sc : scenario) (I : state → Prop) (X : exn → state → Prop).

Hypothesis I_plain : ∀ e st, plain e = true → I st → I (add_event e st).
Hypothesis I_disk : ∀ f st, I st → I (with_disk f st).
Hypothesis I_sigint : ∀ st, I st → X (SystemExit 0) (handler_state sc st).

Lemma I_teardown_state st : I st → I (teardown_state sc st).
Proof using I_plain I_disk.
  intros Hst. unfold teardown_state.
  destruct (cleanup_required st && venv_created st); [|done].
  destruct (bool_decide (is_Some (disk st !! [VENV_DIR]))); [|by apply I_plain].
  destruct (sc_rmtree_ok sc RmTeardown); auto using I_plain, I_disk.
Qed.

Lemma I_unlink_state p st : I st → I (unlink_state p st).
Proof using I_plain I_disk.
  intros Hst. unfold unlink_state. case_bool_decide; auto using I_plain, I_disk.
Qed.

Lemma spec_cleanup_environment :
  triple I (cleanup_environment sc) (outcome I X).
Proof using I_plain I_disk.
  intros st Hst. rewrite cleanup_environment_eq. simpl.
  by apply I_teardown_state.
Qed.

Lemma spec_shutil_rmtree site :
  triple I (shutil_rmtree sc site) (outcome I X).
Proof using I_plain I_disk.
  intros st Hst. py_exec.
  destruct (sc_rmtree_ok sc site); simpl; auto using I_plain, I_disk.
Qed.

(** How a subprocess call ends: in a state satisfying [I], or, on an
    interrupt, in the state the handler leaves. *)
Lemma subprocess_run_cases c st :
  I st →
  match subprocess_run sc c st with
  | (Return _, st2) => I st2
  | (Raise e, st2) =>
      if is_Exception e then I st2
      else e = SystemExit 0 ∧ ∃ st1, I st1 ∧ st2 = handler_state sc st1
  end.
Proof using I_plain I_disk.
  intros Hst. unfold subprocess_run. py_exec.
  destruct (sc_proc sc c) as [| |err|]; simpl.
  - auto using I_plain, I_disk.
  - auto using I_plain, I_disk.
  - destruct err; simpl; auto using I_plain.
  - rewrite signal_handler_eq. simpl. split; [done|].
    eexists. split; [|reflexivity]. auto using I_plain, I_disk.
Qed.

Lemma run_command_eq c st : run_command sc c st = subprocess_run sc c st.
Proof.
  unfold run_command, try_except.
  destruct (subprocess_run sc c st) as [[a|e] st2]; [done|].
  by destruct e.
Qed.

Lemma spec_run_command c : triple I (run_command sc c) (outcome I X).
Proof using I_plain I_disk I_sigint.
  intros st Hst. rewrite run_command_eq.
  pose proof (subprocess_run_cases c st Hst) as H.
  destruct (subprocess_run sc c st) as [[a|e] st2]; simpl; [done|].
  destruct (is_Exception e); [done|].
  destruct H as [-> (st1 & Hst1 & ->)]. by apply I_sigint.
Qed.

Lemma spec_install_dependencies :
  triple I (install_dependencies sc) (outcome I X).
Proof using I_plain I_disk I_sigint.
  unfold install_dependencies.
  apply spec_bind; [apply spec_run_command | intros _].
  apply spec_for_each. intros package.
  apply spec_bind; [apply spec_run_command | intros _; apply spec_ret].
Qed.

Hypothesis I_venv : ∀ st, I st → I (with_venv_created true st).

Lemma spec_create_virtual_environment :
  triple I (create_virtual_environment sc) (outcome I X).
Proof using I_plain I_disk I_sigint I_venv.
  unfold create_virtual_environment.
  apply spec_bind; [apply spec_path_exists | intros ex].
  apply spec_bind.
  { destruct ex; [|apply spec_ret].
    apply spec_try_except; [apply spec_shutil_rmtree|].
    intros e k Hk. destruct e; simplify_eq/=; split; by try apply spec_raise. }
  intros _. apply spec_bind; [apply spec_run_command | intros _].
  intros st Hst. by apply I_venv.
Qed.

Hypothesis I_sigint_unlink :
  ∀ p st, I st → X (SystemExit 0) (unlink_state p (handler_state sc st)).

Lemma finally_unlink_eq p st :
  (ex ← path_exists p; if (ex : bool) then os_unlink p else mret tt) st =
  (Return tt, unlink_state p st).
Proof. py_exec. unfold unlink_state. by case_bool_decide. Qed.

Lemma spec_convert_markdown_to_pdf md_path output_path :
  triple I (convert_markdown_to_pdf sc md_path output_path) (outcome I X).
Proof using I_plain I_disk I_sigint_unlink.
  intros st Hst. unfold convert_markdown_to_pdf.
  rewrite bind_unfold. unfold named_temporary_file at 1.
  rewrite !bind_unfold. simpl. unfold try_finally.
  rewrite bind_unfold, run_command_eq.
  set (st1 := with_disk _ _).
  assert (I st1) as Hst1 by (subst st1; auto using I_plain, I_disk).
  pose proof (subprocess_run_cases
    (RunScript (get_venv_executable (sc_platform sc) "python") (sc_tmp sc))
    st1 Hst1) as H.
  destruct (subprocess_run sc _ st1) as [[a|e] st2]; simpl;
    rewrite finally_unlink_eq; simpl.
  - by apply I_unlink_state.
  - destruct (is_Exception e); [by apply I_unlink_state|].
    destruct H as [-> (st0 & Hst0 & ->)]. by apply I_sigint_unlink.
Qed.

(** The steps before arming. *)
Hypothesis I_input : ∀ q st, I st → I (add_event (EvInput q) st).
Hypothesis I_exit : ∀ code st, I st → X (SystemExit code) st.

Lemma spec_input q : triple I (input sc q) (outcome I X).
Proof using I_input I_sigint.
  intros st Hst. unfold input. py_exec.
  destruct (sc_input sc q); simpl; auto.
  rewrite signal_handler_eq. simpl. auto.
Qed.

Lemma spec_check_system_packages :
  triple I (check_system_packages sc) (outcome I X).
Proof using I_plain I_disk I_sigint I_input I_exit.
  unfold check_system_packages. apply spec_bind.
  - destruct (sc_platform sc); try apply spec_ret.
    apply spec_try_except.
    + apply spec_bind; [apply spec_run_command | intros; apply spec_ret].
    + intros e k Hk. destruct e; simplify_eq/=; split; by try apply spec_ret.
  - intros [|]; [apply spec_ret|].
    apply spec_bind; [apply spec_input | intros response].
    destruct (negb _); [apply spec_exit, I_exit | apply spec_ret].
Qed.

End Discipline.

Lemma spec_validate_markdown_file I X filepath :
  triple I (validate_markdown_file filepath) (outcome I X).
Proof.
  intros st Hst. unfold validate_markdown_file. py_exec.
  destruct (disk st !! Pathlib.Path filepath) as [n|]; [|done].
  destruct (negb (is_file n)); [done|]. by destruct (negb (readable n)).
Qed.

(** ** The orchestrator *)

Section Orchestration.

Context (sc : scenario) (I0 I1 : state → Prop) (X : exn → state → Prop)
        (R : state → Prop).

Hypothesis H_overwrite : triple I0 (input sc AskOverwrite) (outcome I0 X).
Hypothesis H_check : triple I0 (check_system_packages sc) (outcome I0 X).
Hypothesis H_exit0 : ∀ st, I0 st → X (SystemExit 0) st.
Hypothesis H_arm : ∀ st, I0 st → I1 (with_cleanup_required true st).
Hypothesis H_create :
  triple I1 (create_virtual_environment sc) (outcome I1 X).
Hypothesis H_install : triple I1 (install_dependencies sc) (outcome I1 X).
Hypothesis H_convert : ∀ md_path output_path,
  triple I1 (convert_markdown_to_pdf sc md_path output_path) (outcome I1 X).
Hypothesis H_teardown :
  ∀ st, I1 st → I1 (teardown_state sc st) ∧ R (teardown_state sc st).
Hypothesis H_handler0 : ∀ st, I0 st → X (SystemExit 1) (teardown_state sc st).
Hypothesis H_handler1 : ∀ st, I1 st → X (SystemExit 1) (teardown_state sc st).

Lemma before_arming {A} (m : Py A) (k : A → Py unit) :
  triple I0 m (outcome I0 X) →
  (∀ a, triple I0 (k a) (body_post I0 I1 X R)) →
  triple I0 (m ≫= k) (body_post I0 I1 X R).
Proof.
  intros Hm Hk. eapply triple_bind; [exact Hm | exact Hk |].
  intros e st. simpl. destruct (is_Exception e); auto.
Qed.

Lemma after_arming {A} (m : Py A) (k : A → Py unit) :
  triple I1 m (outcome I1 X) →
  (∀ a, triple I1 (k a) (body_post I0 I1 X R)) →
  triple I1 (m ≫= k) (body_post I0 I1 X R).
Proof.
  intros Hm Hk. eapply triple_bind; [exact Hm | exact Hk |].
  intros e st. simpl. destruct (is_Exception e); auto.
Qed.

Lemma main_body_spec md_file_arg :
  triple I0 (main_body sc md_file_arg) (body_post I0 I1 X R).
Proof using All.
  unfold main_body.
  apply before_arming; [apply spec_validate_markdown_file | intros md_path].
  apply before_arming.
  { destruct (Pathlib.with_suffix md_path ".pdf");
      [apply spec_ret | by apply spec_raise]. }
  intros output_pdf_path.
  apply before_arming; [apply spec_path_exists | intros ex].
  apply before_arming.
  { destruct ex; [|apply spec_ret].
    apply spec_bind; [apply H_overwrite | intros response].
    destruct (negb _); [apply spec_exit, H_exit0 | apply spec_ret]. }
  intros _. apply before_arming; [apply H_check | intros _].
  eapply triple_bind with (M := outcome I1 X).
  { intros st Hst. by apply H_arm. }
  2: { intros e st. simpl. destruct (is_Exception e); auto. }
  intros []. apply after_arming; [apply H_create | intros _].
  apply after_arming; [apply H_install | intros _].
  apply after_arming; [apply H_convert | intros _].
  intros st Hst. rewrite bind_unfold, cleanup_environment_eq.
  destruct (H_teardown st Hst) as [H1 HR]. py_exec.
  destruct (disk (teardown_state sc st) !! output_pdf_path); simpl; auto.
Qed.

Lemma main_spec : triple I0 (main sc) (main_post X R).
Proof using All.
  intros st Hst. unfold main.
  destruct (sc_argv sc) as [|a0 [|a1 [|a2 rest]]];
    try (simpl; split; [done | by apply H_exit0]).
  destruct (is_help a1); [simpl; split; [done | by apply H_exit0]|].
  pose proof (main_body_spec a1 st Hst) as Hbody. unfold try_except.
  destruct (main_body sc a1 st) as [[[]|e] st1]; simpl in *; [tauto|].
  assert (∀ st2, I0 st2 ∨ I1 st2 →
    main_post X R (Raise (SystemExit 1)) (teardown_state sc st2)) as Hh.
  { intros st2 [H|H]; (split; [done|]); auto. }
  destruct e; simpl in *;
    rewrite ?bind_unfold, ?cleanup_environment_eq; simpl; auto.
Qed.

End Orchestration.

(** ** The interrupt path *)

Section Interrupt.

Context (sc : scenario).

Lemma no_sigint_plain e st :
  plain e = true → no_sigint st → no_sigint (add_event e st).
Proof.
  unfold no_sigint. simpl. intros He Hst [H|H%list_elem_of_singleton]%elem_of_app;
    [done | by subst e].
Qed.

Lemma no_sigint_input q st : no_sigint st → no_sigint (add_event (EvInput q) st).
Proof.
  unfold no_sigint. simpl. by intros Hst [H|H%list_elem_of_singleton]%elem_of_app.
Qed.

Lemma no_sigint_exit code st : no_sigint st → on_sigint (SystemExit code) st.
Proof. by intros Hst Hin. Qed.

Lemma interrupted_handler st :
  no_sigint st → interrupted_quietly (handler_state sc st).
Proof.
  intros Hst. unfold handler_state.
  destruct (teardown_state_trace sc (add_event EvSigint st))
    as (evs & Htr & Hquiet & Hev).
  destruct (teardown_state_flags sc (add_event EvSigint st)) as [Hc Hv].
  exists (trace st), evs. split_and!; try done.
  - rewrite Htr. simpl. by rewrite <- app_assoc.
  - intros H1 H2. apply Hev. by rewrite <- Hc, <- Hv.
Qed.

Lemma interrupted_unlink p st :
  interrupted_quietly st → interrupted_quietly (unlink_state p st).
Proof.
  intros (pre & post & Htr & Hpre & Hquiet & Hev). unfold unlink_state.
  case_bool_decide; [|by exists pre, post].
  exists pre, (post ++ [EvUnlink p]). simpl. split_and!; try done.
  - by rewrite Htr, <- app_assoc.
  - apply Forall_app. split; [done | by repeat constructor].
  - intros H1 H2. apply elem_of_app. left. by apply Hev.
Qed.

Lemma no_sigint_sigint st :
  no_sigint st → on_sigint (SystemExit 0) (handler_state sc st).
Proof. intros Hst _. split; [done | by apply interrupted_handler]. Qed.

Lemma no_sigint_sigint_unlink p st :
  no_sigint st → on_sigint (SystemExit 0) (unlink_state p (handler_state sc st)).
Proof.
  intros Hst _. split; [done|]. by apply interrupted_unlink, interrupted_handler.
Qed.

Lemma main_interrupt_spec :
  triple no_sigint (main sc) (main_post on_sigint no_sigint).
Proof.
  assert (∀ st, no_sigint st → no_sigint (teardown_state sc st)) as Htd.
  { apply I_teardown_state; [apply no_sigint_plain | done]. }
  apply main_spec with (I1 := no_sigint).
  - apply spec_input; auto using no_sigint_input, no_sigint_sigint.
  - apply spec_check_system_packages;
      auto using no_sigint_plain, no_sigint_input, no_sigint_sigint, no_sigint_exit.
  - auto using no_sigint_exit.
  - done.
  - apply spec_create_virtual_environment;
      auto using no_sigint_plain, no_sigint_sigint.
  - apply spec_install_dependencies;
      auto using no_sigint_plain, no_sigint_sigint.
  - intros. apply spec_convert_markdown_to_pdf;
      auto using no_sigint_plain, no_sigint_sigint_unlink.
  - auto.
  - auto using no_sigint_exit.
  - auto using no_sigint_exit.
Qed.

End Interrupt.

(** C4 (as amended).  When SIGINT arrives, the handler runs teardown and the
    process ends with exit status 0; nothing of the pipeline runs after the
    interrupt, only teardown and the removal of the temporary script. *)
Theorem interrupt_tears_down_and_exits (sc : scenario)
    (d : gmap (list string) node) :
  EvSigint ∈ trace (run sc d).2 →
  (run sc d).1 = 0 ∧ interrupted_quietly (run sc d).2.
Proof.
  intros Hin. unfold run in *.
  pose proof (main_interrupt_spec sc (initial_state d)) as H.
  destruct (main sc (initial_state d)) as [[[]|e] st]; simpl in *.
  - exfalso. by apply H; [intros ?%elem_of_nil|].
  - destruct H as [He Hon]; [by intros ?%elem_of_nil|].
    destruct (Hon Hin) as [-> Hq]. done.
Qed.

Lemma interrupt_tears_down_and_exits_witness :
  (run sigint_during_install report_only).1 = 0.
Proof.
  apply (interrupt_tears_down_and_exits sigint_during_install report_only).
  vm_compute. apply list_elem_of_In. simpl. tauto.
Defined.

(** C4 as stated fails: the exit status after an interrupt is 0. *)
Lemma interrupt_exit_status_is_zero :
  EvSigint ∈ trace (run sigint_during_install report_only).2 ∧
  ¬ (run sigint_during_install report_only).1 ≠ 0.
Proof.
  split.
  - vm_compute. apply list_elem_of_In. simpl. tauto.
  - vm_compute. intros H. by apply H.
Qed.

(** ** Teardown after the environment was created *)

Section TeardownAfterCreation.

Context (sc : scenario).
Hypothesis rmtree_ok : sc_rmtree_ok sc RmTeardown = true.

Lemma teardown_state_gone st :
  armed st → torn_down (teardown_state sc st).
Proof using rmtree_ok.
  unfold armed, torn_down, teardown_state. intros ->. simpl.
  destruct (venv_created st) eqn:Hv; simpl; [|by rewrite Hv].
  case_bool_decide as Hex.
  - rewrite rmtree_ok. simpl. intros _. by apply rmtree_absent.
  - simpl. intros _. by apply eq_None_not_Some.
Qed.

Lemma torn_down_unlink p st : torn_down st → torn_down (unlink_state p st).
Proof.
  unfold torn_down, unlink_state. intros H. case_bool_decide; [|done].
  simpl. intros Hv. rewrite lookup_delete. case_decide; [done | by apply H].
Qed.

Lemma not_created_teardown st :
  not_created st → teardown_state sc st = st.
Proof.
  intros H. apply teardown_state_idle. rewrite H. apply andb_false_r.
Qed.

Lemma not_created_exit st : not_created st → torn_down st.
Proof. unfold not_created, torn_down. by intros ->. Qed.

Lemma not_created_sigint st :
  not_created st → torn_down (handler_state sc st).
Proof.
  intros H. unfold handler_state.
  rewrite not_created_teardown by done. by apply not_created_exit.
Qed.

Lemma armed_sigint st : armed st → torn_down (handler_state sc st).
Proof using rmtree_ok. intros H. by apply teardown_state_gone. Qed.

Lemma armed_teardown st : armed st → armed (teardown_state sc st).
Proof.
  unfold armed. by destruct (teardown_state_flags sc st) as [-> _].
Qed.

Lemma main_teardown_spec :
  triple not_created (main sc) (main_post (λ _, torn_down) torn_down).
Proof using rmtree_ok.
  apply main_spec with (I1 := armed).
  - apply spec_input; auto using not_created_sigint.
  - apply spec_check_system_packages;
      auto using not_created_sigint, not_created_exit.
  - apply not_created_exit.
  - done.
  - apply spec_create_virtual_environment; auto using armed_sigint.
  - apply spec_install_dependencies; auto using armed_sigint.
  - intros. apply spec_convert_markdown_to_pdf; auto.
    intros p st Hst. by apply torn_down_unlink, armed_sigint.
  - auto using armed_teardown, teardown_state_gone.
  - intros st Hst. rewrite not_created_teardown by done.
    by apply not_created_exit.
  - apply teardown_state_gone.
Qed.

End TeardownAfterCreation.

(** C1 (as amended).  Once the environment has been created in a run
    ([venv_created] set), every way the run can end after that -- a failed
    dependency installation, a failed conversion, an interrupt during either,
    or success -- leaves no runtime directory on disk, provided the removal
    of the directory itself succeeds. *)
Theorem teardown_after_creation (sc : scenario) (d : gmap (list string) node) :
  sc_rmtree_ok sc RmTeardown = true →
  venv_created (run sc d).2 = true →
  disk (run sc d).2 !! [VENV_DIR] = None.
Proof.
  intros Hrm Hv. unfold run in *.
  pose proof (main_teardown_spec sc Hrm (initial_state d) eq_refl) as H.
  destruct (main sc (initial_state d)) as [[[]|e] st]; simpl in *.
  - by apply H.
  - destruct H as [_ H]. by apply H.
Qed.

Lemma teardown_after_creation_witness :
  (run install_fails report_only).1 = 1 ∧
  disk (run install_fails report_only).2 !! [VENV_DIR] = None.
Proof.
  split; [reflexivity|].
  apply (teardown_after_creation install_fails report_only); reflexivity.
Defined.

(** C1 as stated fails: a package installation fails after arming, the
    removal of the directory fails too and is only warned about, and the
    process ends with status 1 while the runtime directory is still there. *)
Lemma failed_removal_leaves_directory :
  (run install_fails_rmtree_fails report_only).1 = 1 ∧
  cleanup_required (run install_fails_rmtree_fails report_only).2 = true ∧
  EvTeardownWarning ∈ trace (run install_fails_rmtree_fails report_only).2 ∧
  disk (run install_fails_rmtree_fails report_only).2 !! [VENV_DIR] = Some Dir.
Proof.
  split_and!; try reflexivity.
  vm_compute. apply list_elem_of_In. simpl. tauto.
Qed.

(** A failed creation of the environment is not followed by teardown at
    all, since [venv_created] is set only after the creation succeeded: what
    the failed command left behind stays. *)
Lemma failed_creation_is_not_torn_down :
  (run creation_fails report_only).1 = 1 ∧
  cleanup_required (run creation_fails report_only).2 = true ∧
  venv_created (run creation_fails report_only).2 = false ∧
  (EvTeardown ∉ trace (run creation_fails report_only).2) ∧
  disk (run creation_fails report_only).2 !! [VENV_DIR] = Some Dir.
Proof.
  split_and!; try reflexivity.
  vm_compute. intros H%list_elem_of_In. simpl in H. intuition discriminate.
Qed.

(** ** Declining after the advisory check *)

Section Advisory.

Context (sc : scenario) (d : gmap (list string) node) (r : string).
Hypothesis answer : sc_input sc AskContinue = Answer r.
Hypothesis declined : r ≠ "y" ∧ r ≠ "Y".

Lemma not_asked_plain e st :
  plain e = true → not_asked st → not_asked (add_event e st).
Proof.
  unfold not_asked. simpl.
  intros He Hst [H|H%list_elem_of_singleton]%elem_of_app; [done | by subst e].
Qed.

Lemma not_asked_teardown st : not_asked st → not_asked (teardown_state sc st).
Proof. apply I_teardown_state; [apply not_asked_plain | done]. Qed.

Lemma not_asked_handler st : not_asked st → not_asked (handler_state sc st).
Proof.
  intros Hst. apply not_asked_teardown. unfold not_asked. simpl.
  by intros [H|H%list_elem_of_singleton]%elem_of_app.
Qed.

Lemma not_asked_unlink p st : not_asked st → not_asked (unlink_state p st).
Proof. apply I_unlink_state; [apply not_asked_plain | done]. Qed.

Lemma not_asked_exit e st : not_asked st → on_decline d e st.
Proof. by intros Hst Hin. Qed.

Lemma untouched_event e st : untouched d st → untouched d (add_event e st).
Proof. done. Qed.

Lemma quiet_overwrite_prompt :
  triple (λ st, not_asked st ∧ untouched d st) (input sc AskOverwrite)
    (outcome (λ st, not_asked st ∧ untouched d st) (on_decline d)).
Proof.
  intros st [Hna Hun]. unfold input. py_exec.
  assert (not_asked (add_event (EvInput AskOverwrite) st)) as Hna'.
  { unfold not_asked. simpl.
    by intros [H|H%list_elem_of_singleton]%elem_of_app. }
  destruct (sc_input sc AskOverwrite); simpl; try done.
  rewrite signal_handler_eq. simpl. by apply not_asked_exit, not_asked_handler.
Qed.

Lemma quiet_dpkg :
  triple (λ st, not_asked st ∧ untouched d st) (run_command sc DpkgStatus)
    (outcome (λ st, not_asked st ∧ untouched d st) (on_decline d)).
Proof.
  intros st [Hna Hun]. rewrite run_command_eq. unfold subprocess_run. py_exec.
  assert (not_asked (add_event (EvRun DpkgStatus) st)) as Hna'
    by by apply not_asked_plain.
  destruct (sc_proc sc DpkgStatus) as [| |err|]; simpl; try done.
  - by destruct err.
  - rewrite signal_handler_eq. simpl.
    by apply not_asked_exit, not_asked_handler.
Qed.

Lemma declined_check_system_packages :
  triple (λ st, not_asked st ∧ untouched d st) (check_system_packages sc)
    (outcome (λ st, not_asked st ∧ untouched d st) (on_decline d)).
Proof using answer declined.
  unfold check_system_packages. apply spec_bind.
  - destruct (sc_platform sc); try apply spec_ret.
    apply spec_try_except.
    + apply spec_bind; [apply quiet_dpkg | intros; apply spec_ret].
    + intros e k Hk. destruct e; simplify_eq/=; split; by try apply spec_ret.
  - intros [|]; [apply spec_ret|].
    intros st [Hna Hun]. unfold input. py_exec. rewrite answer.
    assert (negb (String.eqb (Str.lower r) "y") = true) as ->
      by by apply declined_iff.
    simpl. intros _. done.
Qed.

Lemma main_advisory_spec :
  triple (λ st, not_asked st ∧ untouched d st) (main sc)
    (main_post (on_decline d) not_asked).
Proof using answer declined.
  apply main_spec with (I1 := not_asked).
  - apply quiet_overwrite_prompt.
  - apply declined_check_system_packages.
  - intros st [Hna _]. by apply not_asked_exit.
  - by intros st [Hna _].
  - apply spec_create_virtual_environment; auto using not_asked_plain.
    intros st Hst. by apply not_asked_exit, not_asked_handler.
  - apply spec_install_dependencies; auto using not_asked_plain.
    intros st Hst. by apply not_asked_exit, not_asked_handler.
  - intros. apply spec_convert_markdown_to_pdf; auto using not_asked_plain.
    intros p st Hst. by apply not_asked_exit, not_asked_unlink, not_asked_handler.
  - auto using not_asked_teardown.
  - intros st [Hna _]. by apply not_asked_exit, not_asked_teardown.
  - intros st Hna. by apply not_asked_exit, not_asked_teardown.
Qed.

End Advisory.

(** C10.  If the user answers the question of the advisory check ("Do you
    want to continue anyway?") with anything but [y] or [Y], the process ends
    with exit status 1; the guard has not been armed, no environment has been
    created, and the disk is as it was when the script started. *)
Theorem declined_advisory_exits_untouched (sc : scenario)
    (d : gmap (list string) node) (r : string) :
  sc_input sc AskContinue = Answer r →
  r ≠ "y" → r ≠ "Y" →
  EvInput AskContinue ∈ trace (run sc d).2 →
  (run sc d).1 = 1 ∧
  disk (run sc d).2 = d ∧
  cleanup_required (run sc d).2 = false ∧
  venv_created (run sc d).2 = false.
Proof.
  intros Hans Hy HY Hin. unfold run in *.
  pose proof (main_advisory_spec sc d r Hans (conj Hy HY) (initial_state d)) as H.
  destruct (main sc (initial_state d)) as [[[]|e] st]; simpl in *.
  - exfalso. apply H; [|done]. split; [by intros ?%elem_of_nil | done].
  - destruct H as [_ H]; [split; [by intros ?%elem_of_nil | done]|].
    destruct (H Hin) as [-> Hun]. done.
Qed.

Lemma declined_advisory_exits_untouched_witness :
  (run declines_on_darwin report_only).1 = 1 ∧
  disk (run declines_on_darwin report_only).2 = report_only ∧
  cleanup_required (run declines_on_darwin report_only).2 = false ∧
  venv_created (run declines_on_darwin report_only).2 = false.
Proof.
  apply (declined_advisory_exits_untouched declines_on_darwin report_only "n");
    try done.
  vm_compute. apply list_elem_of_In. simpl. tauto.
Defined.

(** ** Exits before the guard is armed *)

Section FastExit.

Context (sc : scenario) (d : gmap (list string) node).

Lemma validate_rejects filepath st :
  disk st !! Pathlib.Path filepath = None ∨
  (∃ n, disk st !! Pathlib.Path filepath = Some n ∧
        (is_file n = false ∨ readable n = false)) →
  ∃ e, validate_markdown_file filepath st = (Raise e, st) ∧
       main_handler sc e = Some (cleanup_environment sc ;; sys_exit 1).
Proof.
  unfold validate_markdown_file. py_exec.
  intros [-> | (n & -> & Hn)]; [by exists FileNotFoundError|].
  destruct (is_file n) eqn:Hf; simpl; [|by exists ValueError].
  destruct Hn as [Hn | ->]; [done|]. by exists PermissionError.
Qed.

Lemma validate_accepts filepath st n :
  disk st !! Pathlib.Path filepath = Some n →
  is_file n = true → readable n = true →
  validate_markdown_file filepath st = (Return (Pathlib.Path filepath), st).
Proof.
  intros Hn Hf Hr. unfold validate_markdown_file. py_exec.
  by rewrite Hn, Hf, Hr.
Qed.

End FastExit.

(** C5.  When input validation fails (the source path does not exist, is
    not a regular file, or is not readable), the process ends with status 1
    in the very state it started in: the disk is unchanged, no runtime
    directory was created, nothing was run and nothing was asked. *)
Theorem invalid_input_exits_untouched (sc : scenario)
    (d : gmap (list string) node) (prog arg : string) :
  sc_argv sc = [prog; arg] →
  is_help arg = false →
  d !! Pathlib.Path arg = None ∨
  (∃ n, d !! Pathlib.Path arg = Some n ∧
        (is_file n = false ∨ readable n = false)) →
  run sc d = (1, initial_state d).
Proof.
  intros Hargv Hhelp Hbad. unfold run, main. rewrite Hargv, Hhelp.
  destruct (validate_rejects sc arg (initial_state d) Hbad) as (e & Hv & Hh).
  unfold try_except, main_body. rewrite (bind_raise _ _ _ _ _ Hv), Hh.
  rewrite bind_unfold, cleanup_environment_eq. reflexivity.
Qed.

Lemma invalid_input_exits_untouched_witness :
  run all_ok ∅ = (1, initial_state ∅).
Proof.
  apply (invalid_input_exits_untouched all_ok ∅ "md2pdf.py" "report.md");
    [reflexivity | reflexivity | left; reflexivity].
Defined.

(** C7.  When the target file exists and the user answers the overwrite
    question with anything but [y] or [Y], the process ends with status 0;
    the disk is unchanged (so the target keeps its bytes and no runtime
    directory appears), the guard is not armed, and the question is all that
    happened. *)
Theorem declined_overwrite_exits_untouched (sc : scenario)
    (d : gmap (list string) node) (prog arg r : string) (n : node)
    (output_pdf_path : list string) :
  sc_argv sc = [prog; arg] →
  is_help arg = false →
  d !! Pathlib.Path arg = Some n → is_file n = true → readable n = true →
  Pathlib.with_suffix (Pathlib.Path arg) ".pdf" = Some output_pdf_path →
  is_Some (d !! output_pdf_path) →
  sc_input sc AskOverwrite = Answer r →
  r ≠ "y" → r ≠ "Y" →
  (run sc d).1 = 0 ∧
  disk (run sc d).2 = d ∧
  disk (run sc d).2 !! output_pdf_path = d !! output_pdf_path ∧
  trace (run sc d).2 = [EvInput AskOverwrite] ∧
  cleanup_required (run sc d).2 = false ∧
  venv_created (run sc d).2 = false.
Proof.
  intros Hargv Hhelp Hn Hf Hr Hout Hex Hans Hy HY.
  assert (negb (String.eqb (Str.lower r) "y") = true) as Hdecl
    by by apply declined_iff.
  unfold run, main. rewrite Hargv, Hhelp. unfold try_except, main_body.
  rewrite (bind_return _ _ _ _ _ (validate_accepts arg (initial_state d) n Hn Hf Hr)).
  rewrite Hout. py_exec. simpl.
  rewrite (bool_decide_eq_true_2 _ Hex).
  unfold input. py_exec. rewrite Hans, Hdecl. simpl. done.
Qed.

Lemma declined_overwrite_exits_untouched_witness :
  (run answers_no report_and_pdf).1 = 0 ∧
  disk (run answers_no report_and_pdf).2 = report_and_pdf ∧
  disk (run answers_no report_and_pdf).2 !! ["report.pdf"] =
    report_and_pdf !! ["report.pdf"] ∧
  trace (run answers_no report_and_pdf).2 = [EvInput AskOverwrite] ∧
  cleanup_required (run answers_no report_and_pdf).2 = false ∧
  venv_created (run answers_no report_and_pdf).2 = false.
Proof.
  apply (declined_overwrite_exits_untouched answers_no report_and_pdf
    "md2pdf.py" "report.md" "n" (File (Bytes "# Report") true) ["report.pdf"]);
    try reflexivity; try discriminate.
  vm_compute. eauto.
Defined.

(** ** Teardown *)

(** C2 (as amended).  The body of teardown runs if and only if both flags
    are set; otherwise the call changes nothing.  It never raises, and it
    leaves both flags as they were: [venv_created] is not reset. *)
Theorem teardown_guard (sc : scenario) (st : state) :
  (cleanup_environment sc st).1 = Return tt ∧
  (EvTeardown ∈ new_events st (cleanup_environment sc st).2 ↔
     cleanup_required st = true ∧ venv_created st = true) ∧
  ((cleanup_environment sc st).2 = st ↔
     cleanup_required st && venv_created st = false) ∧
  cleanup_required (cleanup_environment sc st).2 = cleanup_required st ∧
  venv_created (cleanup_environment sc st).2 = venv_created st.
Proof.
  rewrite cleanup_environment_eq. simpl.
  destruct (teardown_state_trace sc st) as (evs & Htr & _ & Hev).
  destruct (teardown_state_flags sc st) as [Hc Hv].
  split_and!; try done.
  - unfold new_events. by rewrite Htr, drop_app_length.
  - split; [|apply teardown_state_idle].
    intros Heq. rewrite Heq in Htr.
    destruct (cleanup_required st && venv_created st) eqn:Hb; [|done].
    apply andb_true_iff in Hb. apply Hev in Hb.
    assert (evs = []) as -> by (apply (app_inv_head (trace st)); by rewrite app_nil_r).
    by apply elem_of_nil in Hb.
Qed.

(** C2 as stated fails: after a teardown that ran and removed the
    directory, [venv_created] is still set. *)
Lemma teardown_leaves_flag_set :
  EvTeardown ∈ trace (cleanup_environment all_ok armed_with_venv).2 ∧
  disk (cleanup_environment all_ok armed_with_venv).2 !! [VENV_DIR] = None ∧
  venv_created (cleanup_environment all_ok armed_with_venv).2 ≠ false.
Proof.
  split_and!.
  - vm_compute. apply list_elem_of_In. simpl. tauto.
  - reflexivity.
  - vm_compute. discriminate.
Qed.

(** ** The temporary script *)

Section TemporaryScript.

Context (sc : scenario).





Lemma convert_markdown_to_pdf_state md_path output_path st :
  ∃ st2,
    (convert_markdown_to_pdf sc md_path output_path st).2 =
      unlink_state (sc_tmp sc) st2 ∧
    st2 = (subprocess_run sc
             (RunScript (get_venv_executable (sc_platform sc) "python") (sc_tmp sc))
             (with_disk (insert (sc_tmp sc)
                           (File (ConversionScript md_path output_path) true))
                (add_event (EvTempCreated (sc_tmp sc)) st))).2.
Proof.
  eexists. split; [|reflexivity].
  unfold convert_markdown_to_pdf.
  rewrite bind_unfold. unfold named_temporary_file at 1.
  rewrite !bind_unfold. simpl. unfold try_finally.
  rewrite bind_unfold, run_command_eq.
  destruct (subprocess_run sc _ _) as [[a|e] st2]; simpl;
    by rewrite finally_unlink_eq.
Qed.

End TemporaryScript.


(** ** Provisioning *)

Section Provisioning.

Context (sc : scenario).
Hypothesis stale_removal_ok : sc_rmtree_ok sc RmStale = true.
Hypothesis commands_ok : ∀ c, sc_proc sc c = ProcOk.

Lemma rmtree_lookup (d : string) (m : gmap (list string) node) (p : list string) :
  rmtree d m !! p = if under d p then None else m !! p.
Proof.
  unfold rmtree. rewrite map_lookup_filter.
  destruct (m !! p) as [x|] eqn:Hp; simpl; [|by destruct (under d p)].
  by destruct (under d p).
Qed.

Lemma venv_tree_lookup (m : gmap (list string) node) (p : list string) :
  venv_tree m !! p = if under VENV_DIR p then m !! p else None.
Proof.
  unfold venv_tree. rewrite map_lookup_filter.
  destruct (m !! p) as [x|] eqn:Hp; simpl; [|by destruct (under VENV_DIR p)].
  by destruct (under VENV_DIR p).
Qed.

Lemma venv_skeleton_outside (pf : platform) (p : list string) :
  under VENV_DIR p = false → venv_skeleton pf !! p = None.
Proof.
  intros Hp. unfold venv_skeleton.
  rewrite !lookup_insert_ne, lookup_empty; [done|..];
    intros <-; by destruct pf.
Qed.

Lemma venv_skeleton_root pf : venv_skeleton pf !! [VENV_DIR] = Some Dir.
Proof. unfold venv_skeleton. by rewrite lookup_insert_eq. Qed.

(** The disk after the provisioning commands ran on [m]. *)
Lemma subprocess_run_ok c st :
  subprocess_run sc c st =
  (Return (sc_dpkg_stdout sc), with_disk (effect_ok sc c) (add_event (EvRun c) st)).
Proof using commands_ok. unfold subprocess_run. py_exec. by rewrite commands_ok. Qed.

Lemma install_dependencies_ok st :
  install_dependencies sc st =
  (Return tt,
   {| cleanup_required := cleanup_required st;
      venv_created := venv_created st;
      disk := foldl (λ m package, <[ site_packages package := Dir ]> m)
                (<[ site_packages "pip" := Dir ]> (disk st)) REQUIRED_PACKAGES;
      trace := trace st ++
               EvRun (PipUpgrade (get_venv_executable (sc_platform sc) "pip")) ::
               map (λ package,
                      EvRun (PipInstall (get_venv_executable (sc_platform sc) "pip")
                               package))
                   REQUIRED_PACKAGES |}).
Proof using commands_ok.
  unfold install_dependencies. simpl.
  rewrite !bind_unfold, !run_command_eq, !subprocess_run_ok. simpl.
  rewrite !bind_unfold, !run_command_eq, !subprocess_run_ok. simpl.
  rewrite !bind_unfold, !run_command_eq, !subprocess_run_ok. simpl.
  unfold with_disk, add_event. simpl. by rewrite <- !app_assoc.
Qed.

Lemma create_virtual_environment_ok st :
  create_virtual_environment sc st =
  (Return tt,
   {| cleanup_required := cleanup_required st;
      venv_created := true;
      disk := venv_skeleton (sc_platform sc) ∪
              (if bool_decide (is_Some (disk st !! [VENV_DIR]))
               then rmtree VENV_DIR (disk st) else disk st);
      trace := trace st ++
               (if bool_decide (is_Some (disk st !! [VENV_DIR]))
                then [EvRmtree RmStale true] else []) ++ [EvRun VenvCreate] |}).
Proof using stale_removal_ok commands_ok.
  unfold create_virtual_environment, shutil_rmtree.
  rewrite bind_unfold. simpl.
  destruct (bool_decide (is_Some (disk st !! [VENV_DIR]))).
  - rewrite stale_removal_ok. py_exec. simpl.
    rewrite run_command_eq, subprocess_run_ok. simpl.
    unfold with_venv_created, with_disk, add_event. simpl.
    by rewrite <- !app_assoc.
  - py_exec. rewrite run_command_eq, subprocess_run_ok. simpl.
    unfold with_venv_created, with_disk, add_event. simpl. done.
Qed.

Lemma provision_ok st :
  provision sc st =
  (Return tt,
   {| cleanup_required := cleanup_required st;
      venv_created := true;
      disk := foldl (λ m package, <[ site_packages package := Dir ]> m)
                (<[ site_packages "pip" := Dir ]>
                   (venv_skeleton (sc_platform sc) ∪
                    (if bool_decide (is_Some (disk st !! [VENV_DIR]))
                     then rmtree VENV_DIR (disk st) else disk st)))
                REQUIRED_PACKAGES;
      trace := trace st ++
               (if bool_decide (is_Some (disk st !! [VENV_DIR]))
                then [EvRmtree RmStale true] else []) ++
               provision_events (sc_platform sc) |}).
Proof using stale_removal_ok commands_ok.
  unfold provision. rewrite bind_unfold, create_virtual_environment_ok.
  rewrite install_dependencies_ok. simpl. unfold provision_events.
  by rewrite <- !app_assoc.
Qed.

(** Installing over a tree changes the same paths whatever lies outside
    the runtime directory. *)
Lemma provisioned_lookup (pf : platform) (m : gmap (list string) node)
    (p : list string) :
  foldl (λ m package, <[ site_packages package := Dir ]> m)
    (<[ site_packages "pip" := Dir ]> (venv_skeleton pf ∪ m))
    REQUIRED_PACKAGES !! p =
  if under VENV_DIR p
  then match provisioned_tree pf !! p with
       | Some x => Some x
       | None => m !! p
       end
  else m !! p.
Proof.
  unfold provisioned_tree. simpl.
  destruct (under VENV_DIR p) eqn:Hp.
  - rewrite !lookup_insert. repeat case_decide; try done.
    rewrite lookup_union. by destruct (venv_skeleton pf !! p), (m !! p).
  - rewrite !lookup_insert_ne by (intros <-; done).
    rewrite lookup_union, venv_skeleton_outside by done.
    by destruct (m !! p).
Qed.

Lemma provisioned_tree_outside (pf : platform) (p : list string) :
  under VENV_DIR p = false → provisioned_tree pf !! p = None.
Proof.
  intros Hp. unfold provisioned_tree. simpl.
  rewrite !lookup_insert_ne by (intros <-; done).
  by apply venv_skeleton_outside.
Qed.

Lemma provisioned_tree_root pf : provisioned_tree pf !! [VENV_DIR] = Some Dir.
Proof.
  unfold provisioned_tree. simpl.
  rewrite !lookup_insert_ne by done. apply venv_skeleton_root.
Qed.

(** Provisioning over a directory that is there. *)
Lemma provision_over_existing st :
  is_Some (disk st !! [VENV_DIR]) →
  venv_tree (disk (provision sc st).2) = provisioned_tree (sc_platform sc) ∧
  (∀ p, under VENV_DIR p = false →
        disk (provision sc st).2 !! p = disk st !! p) ∧
  new_events st (provision sc st).2 =
    EvRmtree RmStale true :: provision_events (sc_platform sc).
Proof using stale_removal_ok commands_ok.
  intros Hex. rewrite provision_ok. cbn [snd disk trace].
  rewrite (bool_decide_eq_true_2 _ Hex). split_and!.
  - apply map_eq. intros p.
    rewrite venv_tree_lookup, provisioned_lookup, rmtree_lookup.
    destruct (under VENV_DIR p) eqn:Hp.
    + by destruct (provisioned_tree _ !! p).
    + symmetry. by apply provisioned_tree_outside.
  - intros p Hp. by rewrite provisioned_lookup, rmtree_lookup, Hp.
  - unfold new_events. cbn [trace]. by rewrite drop_app_length.
Qed.

Lemma provision_creates st :
  (provision sc st).1 = Return tt ∧
  is_Some (disk (provision sc st).2 !! [VENV_DIR]).
Proof using stale_removal_ok commands_ok.
  rewrite provision_ok. cbn [fst snd disk]. split; [done|].
  rewrite provisioned_lookup. cbn [under VENV_DIR String.eqb Ascii.eqb Bool.eqb].
  rewrite provisioned_tree_root. eauto.
Qed.

End Provisioning.

(** C6.  Provisioning is a clean-slate operation.  When its removal of a
    stale directory and its subprocesses succeed, provisioning twice in a row
    succeeds both times; the second run removes the directory of the first
    before it creates the new one, and leaves at and below the runtime
    directory exactly what one provisioning produces, while everything else
    on disk is as before.  The same holds for one provisioning over any
    directory that is already there. *)
Theorem provisioning_is_clean_slate (sc : scenario) (st : state) :
  sc_rmtree_ok sc RmStale = true →
  (∀ c, sc_proc sc c = ProcOk) →
  (provision sc st).1 = Return tt ∧
  (provision sc (provision sc st).2).1 = Return tt ∧
  venv_tree (disk (provision sc (provision sc st).2).2) =
    provisioned_tree (sc_platform sc) ∧
  (∀ p, under VENV_DIR p = false →
        disk (provision sc (provision sc st).2).2 !! p = disk st !! p) ∧
  new_events (provision sc st).2 (provision sc (provision sc st).2).2 =
    EvRmtree RmStale true :: provision_events (sc_platform sc) ∧
  (is_Some (disk st !! [VENV_DIR]) →
   venv_tree (disk (provision sc st).2) = provisioned_tree (sc_platform sc) ∧
   new_events st (provision sc st).2 =
     EvRmtree RmStale true :: provision_events (sc_platform sc)).
Proof.
  intros Hrm Hok.
  destruct (provision_creates sc Hrm Hok st) as [Hr1 Hex1].
  destruct (provision_creates sc Hrm Hok (provision sc st).2) as [Hr2 _].
  destruct (provision_over_existing sc Hrm Hok _ Hex1) as (Htree & Hframe & Hev).
  split_and!; try done.
  - intros p Hp. rewrite Hframe by done.
    rewrite provision_ok by done. cbn [snd disk].
    rewrite provisioned_lookup, Hp.
    case_bool_decide; [|done]. by rewrite rmtree_lookup, Hp.
  - intros Hex. by destruct (provision_over_existing sc Hrm Hok _ Hex) as (? & _ & ?).
Qed.

Lemma provisioning_is_clean_slate_witness :
  sc_rmtree_ok all_ok RmStale = true ∧
  venv_tree (disk (provision all_ok
    (provision all_ok (initial_state report_only)).2).2) =
  provisioned_tree Linux.
Proof.
  split; [reflexivity|].
  destruct (provisioning_is_clean_slate all_ok (initial_state report_only))
    as (_ & _ & H & _); [reflexivity | intros c; reflexivity | exact H].
Defined.

(** ** Whole runs *)

(** A run in which everything succeeds writes the PDF next to the source
    and leaves neither the runtime directory nor the temporary script. *)
Example successful_run :
  (run all_ok report_only).1 = 0 ∧
  disk (run all_ok report_only).2 !! ["report.pdf"] =
    Some (File (Bytes "%PDF-1.7") true) ∧
  disk (run all_ok report_only).2 !! [VENV_DIR] = None ∧
  disk (run all_ok report_only).2 !! sc_tmp all_ok = None.
Proof. split_and!; reflexivity. Qed.

(** A failed conversion: status 1, no PDF, no runtime directory, no
    temporary script. *)
Example failed_conversion_run :
  (run conversion_fails report_only).1 = 1 ∧
  disk (run conversion_fails report_only).2 = report_only.
Proof. split; [reflexivity|]. apply map_eq. intros p. vm_compute. reflexivity. Qed.

(** An interrupt during the conversion: the handler tears down, the
    [finally] clause removes the script, status 0. *)
Example interrupted_conversion_run :
  (run sigint_during_conversion report_only).1 = 0 ∧
  disk (run sigint_during_conversion report_only).2 !! [VENV_DIR] = None ∧
  disk (run sigint_during_conversion report_only).2 !! sc_tmp all_ok = None ∧
  new_events (initial_state report_only)
    (run sigint_during_conversion report_only).2 =
  [ EvRun DpkgStatus; EvRun VenvCreate;
    EvRun (PipUpgrade [VENV_DIR; "bin"; "pip"]);
    EvRun (PipInstall [VENV_DIR; "bin"; "pip"] "weasyprint>=60.0");
    EvRun (PipInstall [VENV_DIR; "bin"; "pip"] "markdown-it-py>=3.0.0");
    EvTempCreated (sc_tmp all_ok);
    EvRun (RunScript [VENV_DIR; "bin"; "python"] (sc_tmp all_ok));
    EvSigint; EvTeardown; EvRmtree RmTeardown true;
    EvUnlink (sc_tmp all_ok) ].
Proof. split_and!; reflexivity. Qed.

(** ** What the script leaves alone *)

Section KeepsRules.

Context {A B : Type}.
Implicit Types (I : state → Prop).

Lemma keeps_bind I (m : Py A) (k : A → Py B) :
  keeps I m → (∀ a, keeps I (k a)) → keeps I (m ≫= k).
Proof. intros Hm Hk. eapply triple_bind; [exact Hm | exact Hk | done]. Qed.

(** The same, when the continuation needs to know what [m] returned. *)
Lemma keeps_bind_val I (V : A → Prop) (m : Py A) (k : A → Py B) :
  triple I m (λ r st, I st ∧ ∀ a, r = Return a → V a) →
  (∀ a, V a → keeps I (k a)) →
  keeps I (m ≫= k).
Proof.
  intros Hm Hk st Hst. specialize (Hm st Hst). rewrite bind_unfold.
  destruct (m st) as [[a|e] st']; simpl in *; [|tauto].
  destruct Hm as [HI HV]. by apply Hk; [apply HV|].
Qed.

Lemma keeps_ret I (a : A) : keeps I (mret a).
Proof. by intros st Hst. Qed.

Lemma keeps_raise I (e : exn) : keeps I (raise (A:=A) e).
Proof. by intros st Hst. Qed.

Lemma keeps_try_except I (m : Py A) (h : exn → option (Py A)) :
  keeps I m → (∀ e k, h e = Some k → keeps I k) → keeps I (try_except m h).
Proof.
  intros Hm Hh st Hst. specialize (Hm st Hst). unfold try_except.
  destruct (m st) as [[a|e] st']; simpl in *; [done|].
  destruct (h e) as [k|] eqn:Hk; [|done]. by apply (Hh e k Hk).
Qed.

Lemma keeps_try_finally I (m : Py A) (fin : Py unit) :
  keeps I m → keeps I fin → keeps I (try_finally m fin).
Proof.
  intros Hm Hfin st Hst. specialize (Hm st Hst). unfold try_finally.
  destruct (m st) as [r st']. specialize (Hfin st' Hm).
  by destruct (fin st') as [[u|e] st''].
Qed.

End KeepsRules.

Lemma keeps_for_each {A} (I : state → Prop) (l : list A) (body : A → Py unit) :
  (∀ x, keeps I (body x)) → keeps I (for_each l body).
Proof.
  intros Hbody. induction l as [|x l IH]; simpl.
  - apply keeps_ret.
  - apply keeps_bind; [apply Hbody | intros _; apply IH].
Qed.

Section Frame.

Context (sc : scenario) (p : list string) (v : option node).
Hypothesis outside : under VENV_DIR p = false.

Lemma teardown_state_outside st :
  disk (teardown_state sc st) !! p = disk st !! p.
Proof using outside.
  unfold teardown_state.
  destruct (cleanup_required st && venv_created st); [|done].
  destruct (bool_decide (is_Some (disk st !! [VENV_DIR]))); [|done].
  destruct (sc_rmtree_ok sc RmTeardown); [|done].
  simpl. by rewrite rmtree_lookup, outside.
Qed.

Lemma keeps_cleanup_environment :
  keeps (agrees_at p v) (cleanup_environment sc).
Proof using outside.
  intros st Hst. rewrite cleanup_environment_eq. unfold agrees_at. simpl.
  by rewrite teardown_state_outside.
Qed.

Lemma agrees_at_handler st :
  agrees_at p v st → agrees_at p v (handler_state sc st).
Proof using outside.
  unfold agrees_at, handler_state. by rewrite teardown_state_outside.
Qed.

Lemma effect_ok_outside (c : command) (m : gmap (list string) node) :
  is_run_script c = false → effect_ok sc c m !! p = m !! p.
Proof using outside.
  intros Hc. destruct c; simpl; try done.
  - by rewrite lookup_union_r by by apply venv_skeleton_outside.
  - rewrite lookup_insert_ne; [done|]. intros <-. done.
  - rewrite lookup_insert_ne; [done|]. intros <-. done.
Qed.

Lemma effect_partial_outside (c : command) (m : gmap (list string) node) :
  effect_partial sc c m !! p = m !! p.
Proof using outside.
  destruct c; simpl; try done.
  destruct (sc_venv_partial sc); [|done].
  rewrite lookup_insert_ne; [done|]. intros <-. done.
Qed.

Lemma keeps_subprocess_run c :
  is_run_script c = false → keeps (agrees_at p v) (subprocess_run sc c).
Proof using outside.
  intros Hc st Hst. unfold subprocess_run, agrees_at in *. py_exec.
  destruct (sc_proc sc c) as [| |err|]; simpl.
  - by rewrite effect_ok_outside.
  - by rewrite effect_partial_outside.
  - done.
  - rewrite signal_handler_eq. simpl. apply agrees_at_handler.
    unfold agrees_at. simpl. by rewrite effect_partial_outside.
Qed.

Lemma keeps_run_command c :
  is_run_script c = false → keeps (agrees_at p v) (run_command sc c).
Proof using outside.
  intros Hc st Hst. rewrite run_command_eq. by apply keeps_subprocess_run.
Qed.

Lemma keeps_shutil_rmtree site : keeps (agrees_at p v) (shutil_rmtree sc site).
Proof using outside.
  intros st Hst. unfold agrees_at in *. py_exec.
  destruct (sc_rmtree_ok sc site); simpl; [|done].
  by rewrite rmtree_lookup, outside.
Qed.

Lemma keeps_create_virtual_environment :
  keeps (agrees_at p v) (create_virtual_environment sc).
Proof using outside.
  unfold create_virtual_environment.
  apply keeps_bind; [by intros st Hst | intros ex].
  apply keeps_bind.
  { destruct ex; [|apply keeps_ret].
    apply keeps_try_except; [apply keeps_shutil_rmtree|].
    intros e k Hk. destruct (is_OSError e); simplify_eq. apply keeps_raise. }
  intros _. apply keeps_bind; [by apply keeps_run_command | intros _].
  by intros st Hst.
Qed.

Lemma keeps_install_dependencies :
  keeps (agrees_at p v) (install_dependencies sc).
Proof using outside.
  unfold install_dependencies.
  apply keeps_bind; [by apply keeps_run_command | intros _].
  apply keeps_for_each. intros package.
  apply keeps_bind; [by apply keeps_run_command | intros _; apply keeps_ret].
Qed.

Lemma keeps_input q : keeps (agrees_at p v) (input sc q).
Proof using outside.
  intros st Hst. unfold input. py_exec.
  destruct (sc_input sc q); simpl; try done.
  rewrite signal_handler_eq. simpl. by apply agrees_at_handler.
Qed.

Lemma keeps_check_system_packages :
  keeps (agrees_at p v) (check_system_packages sc).
Proof using outside.
  unfold check_system_packages. apply keeps_bind.
  - destruct (sc_platform sc); try apply keeps_ret.
    apply keeps_try_except.
    + apply keeps_bind; [by apply keeps_run_command | intros; apply keeps_ret].
    + intros e k Hk. destruct e; simplify_eq/=; apply keeps_ret.
  - intros [|]; [apply keeps_ret|].
    apply keeps_bind; [apply keeps_input | intros response].
    destruct (negb _); [apply keeps_raise | apply keeps_ret].
Qed.

Lemma validate_markdown_file_value filepath :
  triple (agrees_at p v) (validate_markdown_file filepath)
    (λ r st, agrees_at p v st ∧ ∀ a, r = Return a → a = Pathlib.Path filepath).
Proof.
  intros st Hst. unfold validate_markdown_file. py_exec.
  destruct (disk st !! Pathlib.Path filepath) as [n|]; [|done].
  destruct (negb (is_file n)); [done|].
  destruct (negb (readable n)); [done|]. simpl. split; [done|]. by intros a [= <-].
Qed.

Hypothesis not_tmp : p ≠ sc_tmp sc.

Lemma agrees_at_unlink st :
  agrees_at p v st → agrees_at p v (unlink_state (sc_tmp sc) st).
Proof using not_tmp.
  unfold agrees_at, unlink_state. intros Hst. case_bool_decide; [|done].
  simpl. by rewrite lookup_delete_ne.
Qed.

Lemma keeps_convert_markdown_to_pdf md_path output_path :
  output_path ≠ p →
  keeps (agrees_at p v) (convert_markdown_to_pdf sc md_path output_path).
Proof using outside not_tmp.
  intros Hout st Hst.
  destruct (convert_markdown_to_pdf_state sc md_path output_path st)
    as (st2 & -> & ->).
  apply agrees_at_unlink. unfold subprocess_run, agrees_at in *. py_exec.
  destruct (sc_proc sc _) as [| |err|]; simpl.
  - rewrite lookup_insert_eq. by rewrite !lookup_insert_ne.
  - by rewrite lookup_insert_ne.
  - by rewrite lookup_insert_ne.
  - rewrite signal_handler_eq. simpl. apply agrees_at_handler.
    unfold agrees_at. simpl. by rewrite lookup_insert_ne.
Qed.

Lemma keeps_main_body md_file_arg :
  (∀ output_pdf_path,
     Pathlib.with_suffix (Pathlib.Path md_file_arg) ".pdf" = Some output_pdf_path →
     output_pdf_path ≠ p) →
  keeps (agrees_at p v) (main_body sc md_file_arg).
Proof using outside not_tmp.
  intros Hout. unfold main_body.
  eapply keeps_bind_val; [apply validate_markdown_file_value|].
  intros md_path ->.
  apply keeps_bind_val with
    (V := λ out, Pathlib.with_suffix (Pathlib.Path md_file_arg) ".pdf" = Some out).
  { intros st Hst.
    destruct (Pathlib.with_suffix _ _) as [out|]; simpl; [|done].
    split; [done|]. by intros a [= <-]. }
  intros output_pdf_path Hsuffix.
  apply keeps_bind; [by intros st Hst | intros ex].
  apply keeps_bind.
  { destruct ex; [|apply keeps_ret].
    apply keeps_bind; [apply keeps_input | intros response].
    destruct (negb _); [apply keeps_raise | apply keeps_ret]. }
  intros _. apply keeps_bind; [apply keeps_check_system_packages | intros _].
  apply keeps_bind; [by intros st Hst | intros _].
  apply keeps_bind; [apply keeps_create_virtual_environment | intros _].
  apply keeps_bind; [apply keeps_install_dependencies | intros _].
  apply keeps_bind; [by apply keeps_convert_markdown_to_pdf, Hout | intros _].
  apply keeps_bind; [apply keeps_cleanup_environment | intros _].
  intros st Hst. py_exec. by destruct (disk st !! output_pdf_path).
Qed.

Lemma keeps_main :
  (∀ prog md_file_arg output_pdf_path,
     sc_argv sc = [prog; md_file_arg] →
     Pathlib.with_suffix (Pathlib.Path md_file_arg) ".pdf" = Some output_pdf_path →
     output_pdf_path ≠ p) →
  keeps (agrees_at p v) (main sc).
Proof using outside not_tmp.
  intros Hout. unfold main.
  destruct (sc_argv sc) as [|a0 [|a1 [|a2 rest]]] eqn:Hargv;
    try apply keeps_raise.
  destruct (is_help a1); [apply keeps_raise|].
  apply keeps_try_except; [apply keeps_main_body; eauto|].
  intros e k Hk.
  assert (k = (cleanup_environment sc ;; sys_exit 1)) as ->
    by (destruct e; simplify_eq/=; done).
  apply keeps_bind; [apply keeps_cleanup_environment | intros _; apply keeps_raise].
Qed.

End Frame.

(** Environment creation, dependency installation, teardown and the
    advisory check change nothing outside the runtime directory, however they
    end (an interrupt included). *)
Theorem steps_stay_inside_runtime_directory (sc : scenario) (st : state)
    (p : list string) :
  under VENV_DIR p = false →
  disk (create_virtual_environment sc st).2 !! p = disk st !! p ∧
  disk (install_dependencies sc st).2 !! p = disk st !! p ∧
  disk (cleanup_environment sc st).2 !! p = disk st !! p ∧
  disk (check_system_packages sc st).2 !! p = disk st !! p.
Proof.
  intros Hp. split_and!.
  - by apply (keeps_create_virtual_environment sc p (disk st !! p) Hp st).
  - by apply (keeps_install_dependencies sc p (disk st !! p) Hp st).
  - by apply (keeps_cleanup_environment sc p (disk st !! p) Hp st).
  - by apply (keeps_check_system_packages sc p (disk st !! p) Hp st).
Qed.

Lemma steps_stay_inside_runtime_directory_witness :
  disk (install_dependencies install_fails (initial_state report_only)).2
    !! ["report.md"] = report_only !! ["report.md"].
Proof.
  apply (steps_stay_inside_runtime_directory install_fails
           (initial_state report_only) ["report.md"]).
  reflexivity.
Defined.

(** A run changes no path other than those at or below the runtime
    directory, the temporary script, and the output path derived from its
    argument: in particular the source document, unless it is itself the
    output path. *)
Theorem run_touches_only_its_own_paths (sc : scenario)
    (d : gmap (list string) node) (p : list string) :
  under VENV_DIR p = false →
  p ≠ sc_tmp sc →
  (∀ prog md_file_arg output_pdf_path,
     sc_argv sc = [prog; md_file_arg] →
     Pathlib.with_suffix (Pathlib.Path md_file_arg) ".pdf" = Some output_pdf_path →
     output_pdf_path ≠ p) →
  disk (run sc d).2 !! p = d !! p.
Proof.
  intros Hp Htmp Hout. unfold run.
  pose proof (keeps_main sc p (d !! p) Hp Htmp Hout (initial_state d) eq_refl) as H.
  by destruct (main sc (initial_state d)) as [r st].
Qed.

Lemma run_touches_only_its_own_paths_witness :
  disk (run all_ok report_only).2 !! ["report.md"] = report_only !! ["report.md"].
Proof.
  apply (run_touches_only_its_own_paths all_ok report_only ["report.md"]).
  - reflexivity.
  - discriminate.
  - intros prog arg out [= <- <-]. vm_compute. by intros [= <-].
Defined.

(** ** The advisory check, exit statuses, and runs that never arm the guard *)

Lemma with_disk_id st : with_disk (λ m, m) st = st.
Proof. by destruct st. Qed.

Section AdvisoryCheck.

Context (sc : scenario) (I : state → Prop) (X : exn → state → Prop).

Hypothesis I_event : ∀ e st, I st → I (add_event e st).
Hypothesis I_sigint : ∀ st, I st → X (SystemExit 0) (handler_state sc st).
Hypothesis I_exit1 : ∀ st, I st → X (SystemExit 1) st.

(** The status query has no effect on the disk. *)
Lemma spec_dpkg_status : triple I (run_command sc DpkgStatus) (outcome I X).
Proof using I_event I_sigint.
  intros st Hst. rewrite run_command_eq. unfold subprocess_run. py_exec.
  change (effect_ok sc DpkgStatus) with (λ m : gmap (list string) node, m).
  change (effect_partial sc DpkgStatus) with (λ m : gmap (list string) node, m).
  destruct (sc_proc sc DpkgStatus) as [| |err|]; simpl;
    rewrite ?with_disk_id; auto.
  - destruct err; simpl; auto.
  - rewrite signal_handler_eq. simpl. auto.
Qed.

Lemma spec_check_system_packages_pure :
  triple I (check_system_packages sc) (outcome I X).
Proof using I_event I_sigint I_exit1.
  unfold check_system_packages. apply spec_bind.
  - destruct (sc_platform sc); try apply spec_ret.
    apply spec_try_except.
    + apply spec_bind; [apply spec_dpkg_status | intros; apply spec_ret].
    + intros e k Hk. destruct e; simplify_eq/=; split; by try apply spec_ret.
  - intros [|]; [apply spec_ret|].
    apply spec_bind; [apply spec_input; auto | intros response].
    destruct (negb _); [apply spec_exit, I_exit1 | apply spec_ret].
Qed.

End AdvisoryCheck.

Section ExitStatus.

Context (sc : scenario).

Lemma main_exit_spec :
  triple (λ _, True) (main sc)
    (main_post (λ e _, exits_zero_or_one e) (λ _, True)).
Proof.
  apply main_spec with (I1 := λ _, True); try done.
  - apply spec_input; [by left | done].
  - apply spec_check_system_packages_pure; [done | by left | by right].
  - by left.
  - apply spec_create_virtual_environment; try done. by left.
  - apply spec_install_dependencies; try done. by left.
  - intros. apply spec_convert_markdown_to_pdf; try done. by left.
  - by right.
  - by right.
Qed.

End ExitStatus.

(** [main] never lets an exception escape: it returns, or it leaves with
    [sys.exit(0)] or [sys.exit(1)].  The exit status of a run is 0 or 1. *)
Theorem main_returns_or_exits (sc : scenario) (st : state) :
  (main sc st).1 = Return tt ∨
  (main sc st).1 = Raise (SystemExit 0) ∨
  (main sc st).1 = Raise (SystemExit 1).
Proof.
  pose proof (main_exit_spec sc st I) as H.
  destruct (main sc st) as [[[]|e] st']; simpl in *; [by left|].
  destruct H as [_ [-> | ->]]; auto.
Qed.

Section Unarmed.

Context (sc : scenario) (d : gmap (list string) node).

Lemma untouched_handler st :
  untouched d st → untouched d (handler_state sc st).
Proof.
  intros (Hd & Hc & Hv). unfold handler_state.
  rewrite teardown_state_idle; [done|]. simpl. by rewrite Hc.
Qed.

Lemma untouched_teardown st :
  untouched d st → teardown_state sc st = st.
Proof.
  intros (Hd & Hc & Hv). apply teardown_state_idle. by rewrite Hc.
Qed.

Lemma armed_handler_not_unarmed st :
  armed st → cleanup_required (handler_state sc st) = false → untouched d (handler_state sc st).
Proof.
  unfold armed, handler_state. intros Ha.
  destruct (teardown_state_flags sc (add_event EvSigint st)) as [-> _].
  simpl. by rewrite Ha.
Qed.

Lemma unlink_state_flags p st :
  cleanup_required (unlink_state p st) = cleanup_required st ∧
  venv_created (unlink_state p st) = venv_created st.
Proof. unfold unlink_state. by case_bool_decide. Qed.

Lemma main_unarmed_spec :
  triple (untouched d) (main sc)
    (main_post (λ _ st, cleanup_required st = false → untouched d st) armed).
Proof.
  apply main_spec with (I1 := armed).
  - apply spec_input; [|done]. intros st Hst _. by apply untouched_handler.
  - apply spec_check_system_packages_pure; [done | |done].
    intros st Hst _. by apply untouched_handler.
  - done.
  - done.
  - apply spec_create_virtual_environment; try done.
    intros st Hst. by apply armed_handler_not_unarmed.
  - apply spec_install_dependencies; try done.
    intros st Hst. by apply armed_handler_not_unarmed.
  - intros. apply spec_convert_markdown_to_pdf; try done.
    intros p st Hst. destruct (unlink_state_flags p (handler_state sc st)) as [Hc _].
    rewrite Hc. unfold armed, handler_state in *.
    destruct (teardown_state_flags sc (add_event EvSigint st)) as [-> _].
    simpl. by rewrite Hst.
  - intros st Hst. split; by apply armed_teardown.
  - intros st Hst _. by rewrite untouched_teardown.
  - intros st Hst. pose proof (armed_teardown sc st Hst) as H.
    unfold armed in H. by rewrite H.
Qed.

End Unarmed.

(** Every run that ends without the guard armed -- usage, a rejected input,
    a declined question, an interrupt or an error before arming -- leaves the
    disk exactly as it found it and has created no environment. *)
Theorem unarmed_run_leaves_disk (sc : scenario) (d : gmap (list string) node) :
  cleanup_required (run sc d).2 = false →
  disk (run sc d).2 = d ∧ venv_created (run sc d).2 = false.
Proof.
  intros Hc. unfold run in *.
  pose proof (main_unarmed_spec sc d (initial_state d)) as H.
  destruct (main sc (initial_state d)) as [[[]|e] st]; simpl in *.
  - unfold armed in H. rewrite H in Hc; done.
  - destruct H as [_ H]; [done|]. by destruct (H Hc) as (? & _ & ?).
Qed.

Lemma unarmed_run_leaves_disk_witness :
  disk (run declines_on_darwin report_and_stale_venv).2 = report_and_stale_venv ∧
  venv_created (run declines_on_darwin report_and_stale_venv).2 = false.
Proof.
  apply (unarmed_run_leaves_disk declines_on_darwin report_and_stale_venv).
  reflexivity.
Defined.

(** ** More on the compose stage and on output paths *)

(** Content that holds the placeholder token is inserted as it is: the
    substitution is not applied to the inserted text, the template text around
    it is unchanged, and the output holds the token exactly when the content
    does. *)
Theorem compose_inserts_verbatim (html_content : string) :
  Compose.full_html html_content =
    Compose.template_head +:+ html_content +:+ Compose.template_tail ∧
  Str.contains Compose.placeholder (Compose.full_html html_content) =
    Str.contains Compose.placeholder html_content.
Proof.
  split; [apply full_html_shape|].
  destruct (full_html_split html_content) as (head & tail & _ & _ & Hh & Ht & ->).
  rewrite !contains_app_sep by reflexivity.
  rewrite Hh, Ht. simpl. apply orb_false_r.
Qed.

Section SuffixFacts.

Lemma substring_length (s : string) (n m : nat) :
  (n + m ≤ String.length s)%nat → String.length (substring n m s) = m.
Proof.
  revert n m. induction s as [|c s IH]; intros n m Hlen; simpl in *.
  - destruct n, m; simpl; lia.
  - destruct n as [|n]; [destruct m as [|m]; simpl; [done|]|].
    + rewrite (IH 0%nat m); [done | lia].
    + apply IH. lia.
Qed.

Lemma substring_split (s : string) (i : nat) :
  (i ≤ String.length s)%nat →
  substring 0 i s +:+ substring i (String.length s - i) s = s.
Proof.
  revert i. induction s as [|c s IH]; intros i Hi; simpl in *.
  - by destruct i.
  - destruct i as [|i]; simpl.
    + rewrite string_app_nil_l. by rewrite substring_whole.
    + rewrite string_app_cons. f_equal. apply IH. lia.
Qed.

(** A name is its stem followed by its suffix, and the stem of a name with a
    suffix is not empty. *)
Lemma suffix_of_name_stem (n : string) :
  Pathlib.suffix_of_name n ≠ "" →
  ∃ stem,
    stem ≠ "" ∧
    n = stem +:+ Pathlib.suffix_of_name n ∧
    substring 0 (String.length n - String.length (Pathlib.suffix_of_name n)) n = stem.
Proof.
  unfold Pathlib.suffix_of_name.
  destruct (Z.ltb_spec 0 (Str.rfind "." n)) as [Hpos|]; [|done].
  destruct (Z.ltb_spec (Str.rfind "." n) (Z.of_nat (String.length n) - 1))
    as [Hlt|]; [|done].
  simpl. intros _.
  set (i := Z.to_nat (Str.rfind "." n)).
  assert (0 < i < String.length n)%nat as Hi by lia.
  rewrite substring_length by lia.
  replace (String.length n - (String.length n - i))%nat with i by lia.
  exists (substring 0 i n). split_and!; [|by rewrite substring_split by lia|done].
  intros Hempty. apply (f_equal String.length) in Hempty.
  rewrite substring_length in Hempty by lia. simpl in Hempty. lia.
Qed.

Lemma with_suffix_name (p out : list string) :
  Pathlib.with_suffix p ".pdf" = Some out →
  ∃ stem,
    stem ≠ "" ∧ out = removelast p ++ [stem +:+ ".pdf"] ∧
    Pathlib.name p ≠ "" ∧
    (Pathlib.suffix_of_name (Pathlib.name p) = "" → stem = Pathlib.name p) ∧
    (Pathlib.suffix_of_name (Pathlib.name p) ≠ "" →
     Pathlib.name p = stem +:+ Pathlib.suffix_of_name (Pathlib.name p)).
Proof.
  unfold Pathlib.with_suffix.
  change (negb (Pathlib.valid_suffix ".pdf")) with false. cbv iota.
  destruct (String.eqb_spec (Pathlib.name p) "") as [|Hname]; [done|].
  destruct (String.eqb_spec (Pathlib.suffix_of_name (Pathlib.name p)) "")
    as [Hold|Hold]; intros [= <-].
  - exists (Pathlib.name p). by split_and!.
  - destruct (suffix_of_name_stem _ Hold) as (stem & Hstem & Hn & ->).
    exists stem. by split_and!.
Qed.

Lemma name_snoc (dir : list string) (n : string) :
  n ≠ "/" → Pathlib.name (dir ++ [n]) = n.
Proof.
  intros Hn. unfold Pathlib.name. rewrite last_snoc.
  by destruct (String.eqb_spec n "/").
Qed.

Lemma stem_pdf_not_root (stem : string) : stem +:+ ".pdf" ≠ "/".
Proof.
  intros H. apply (f_equal String.length) in H.
  rewrite string_length_app in H. simpl in H. lia.
Qed.

Lemma name_last (p : list string) :
  Pathlib.name p ≠ "" → p = removelast p ++ [Pathlib.name p].
Proof.
  unfold Pathlib.name. destruct (last p) as [n|] eqn:Hlast; [|done].
  destruct (String.eqb_spec n "/"); [done|]. intros _.
  apply last_Some in Hlast as [l' ->]. by rewrite removelast_last.
Qed.

End SuffixFacts.

(** The output path lies in the directory of the source and its name always
    has the suffix [.pdf]; it is the source path itself exactly when the
    source already has that suffix. *)
Theorem output_path_has_pdf_suffix (p out : list string) :
  Pathlib.with_suffix p ".pdf" = Some out →
  removelast out = removelast p ∧
  Pathlib.suffix_of_name (Pathlib.name out) = ".pdf" ∧
  (out = p ↔ Pathlib.suffix_of_name (Pathlib.name p) = ".pdf").
Proof.
  intros Hout.
  destruct (with_suffix_name p out Hout)
    as (stem & Hstem & -> & Hname & Hnone & Hsome).
  rewrite removelast_last, name_snoc by apply stem_pdf_not_root.
  assert (Pathlib.suffix_of_name (stem +:+ ".pdf") = ".pdf") as Hpdf
    by by apply (suffix_of_name_split stem "pdf").
  split_and!; [done | done |]. split.
  - intros <-. by rewrite name_snoc by apply stem_pdf_not_root.
  - intros Hsuffix. rewrite (name_last p Hname) at 2. do 2 f_equal.
    rewrite Hsome, Hsuffix; [done|]. by rewrite Hsuffix.
Qed.

Lemma output_path_has_pdf_suffix_witness :
  (["docs"; "paper.pdf"] = ["docs"; "paper.pdf"] ↔
   Pathlib.suffix_of_name (Pathlib.name ["docs"; "paper.pdf"]) = ".pdf").
Proof.
  apply (output_path_has_pdf_suffix ["docs"; "paper.pdf"] ["docs"; "paper.pdf"]).
  reflexivity.
Defined.

(** ** The pipeline steps one by one *)

Section Steps.

Context (sc : scenario).

Lemma handler_state_trace st :
  ∃ evs, trace (handler_state sc st) = trace st ++ EvSigint :: evs ∧
         Forall (λ e, quiet e = true) evs.
Proof.
  unfold handler_state.
  destruct (teardown_state_trace sc (add_event EvSigint st)) as (evs & -> & Hq & _).
  exists evs. simpl. by rewrite <- app_assoc.
Qed.

Lemma new_events_app st st' evs :
  trace st' = trace st ++ evs → new_events st st' = evs.
Proof. intros H. unfold new_events. by rewrite H, drop_app_length. Qed.

Lemma quiet_no_run (evs : list event) :
  Forall (λ e, quiet e = true) evs → List.filter is_run evs = [].
Proof.
  induction 1 as [|e evs He _ IH]; [done|]. simpl. rewrite IH. by destruct e.
Qed.

Lemma quiet_not_asked (evs : list event) q :
  Forall (λ e, quiet e = true) evs → EvInput q ∉ evs.
Proof.
  intros Hq Hin. rewrite Forall_forall in Hq. by specialize (Hq _ Hin).
Qed.

(** What one subprocess call does to the log and how it ends. *)
Lemma subprocess_run_summary c st :
  ∃ evs,
    trace (subprocess_run sc c st).2 = trace st ++ EvRun c :: evs ∧
    List.filter is_run evs = [] ∧
    (∀ q, EvInput q ∉ evs) ∧
    (subprocess_run sc c st).1 =
      match sc_proc sc c with
      | ProcOk => Return (sc_dpkg_stdout sc)
      | ProcNonzero => Raise CalledProcessError
      | ProcLaunch e => Raise (launch_exn e)
      | ProcSigint => Raise (SystemExit 0)
      end.
Proof.
  unfold subprocess_run. py_exec.
  destruct (sc_proc sc c) as [| |err|]; simpl;
    try (exists []; split_and!; [done | done | by intros q ?%elem_of_nil | done]).
  rewrite signal_handler_eq. simpl.
  destruct (handler_state_trace
    (with_disk (effect_partial sc c) (add_event (EvRun c) st))) as (evs & -> & Hq).
  exists (EvSigint :: evs). simpl. rewrite <- app_assoc. split_and!; try done.
  - by apply quiet_no_run.
  - intros q [H|H]%elem_of_cons; [done|]. by apply (quiet_not_asked evs q).
Qed.

Lemma subprocess_run_flags c st :
  cleanup_required (subprocess_run sc c st).2 = cleanup_required st ∧
  venv_created (subprocess_run sc c st).2 = venv_created st.
Proof.
  unfold subprocess_run. py_exec.
  destruct (sc_proc sc c) as [| |err|]; try done.
  rewrite signal_handler_eq. cbn [snd]. unfold handler_state.
  by destruct (teardown_state_flags sc (add_event EvSigint
    (with_disk (effect_partial sc c) (add_event (EvRun c) st)))) as [-> ->].
Qed.

End Steps.

(** A second teardown after one whose removal succeeded attempts no removal
    and leaves the disk as the first did. *)
Theorem teardown_twice (sc : scenario) (st : state) :
  sc_rmtree_ok sc RmTeardown = true →
  disk (cleanup_environment sc (cleanup_environment sc st).2).2 =
    disk (cleanup_environment sc st).2 ∧
  ∀ ok, EvRmtree RmTeardown ok ∉
          new_events (cleanup_environment sc st).2
            (cleanup_environment sc (cleanup_environment sc st).2).2.
Proof.
  intros Hrm. rewrite !cleanup_environment_eq. simpl.
  assert (cleanup_required st && venv_created st = true →
          disk (teardown_state sc st) !! [VENV_DIR] = None) as Hgone.
  { intros Hb. unfold teardown_state. rewrite Hb, Hrm.
    case_bool_decide as Hex; simpl;
      [by apply rmtree_absent | by apply eq_None_not_Some]. }
  destruct (teardown_state_flags sc st) as [Hc Hv].
  remember (teardown_state sc st) as st1 eqn:Hst1.
  unfold teardown_state. rewrite Hc, Hv.
  destruct (cleanup_required st && venv_created st) eqn:Hb.
  - rewrite (bool_decide_eq_false_2 (is_Some (disk st1 !! [VENV_DIR]))).
    2: { rewrite Hgone by done. by intros [x Hx]. }
    cbn zeta. split; [done|]. intros ok.
    rewrite (new_events_app _ _ [EvTeardown]) by done.
    by intros [=]%list_elem_of_singleton.
  - split; [done|]. intros ok.
    rewrite (new_events_app _ _ []) by by rewrite app_nil_r.
    by intros ?%elem_of_nil.
Qed.

Lemma teardown_twice_witness :
  disk (cleanup_environment all_ok (cleanup_environment all_ok armed_with_venv).2).2 =
  disk (cleanup_environment all_ok armed_with_venv).2.
Proof.
  apply (teardown_twice all_ok armed_with_venv). reflexivity.
Defined.

(** [create_virtual_environment] sets [venv_created] exactly when it
    returns: after a failure or an interrupt the flag is as it was, and
    [cleanup_required] is never changed. *)
Theorem venv_created_iff_creation_returns (sc : scenario) (st : state) :
  venv_created st = false →
  ((create_virtual_environment sc st).1 = Return tt ↔
   venv_created (create_virtual_environment sc st).2 = true) ∧
  cleanup_required (create_virtual_environment sc st).2 = cleanup_required st.
Proof.
  intros Hv. unfold create_virtual_environment.
  rewrite bind_unfold. simpl.
  assert (∀ st1, venv_created st1 = false →
    let r := (run_command sc VenvCreate ;; set_venv_created true) st1 in
    (r.1 = Return tt ↔ venv_created r.2 = true) ∧
    cleanup_required r.2 = cleanup_required st1) as Hrest.
  { intros st1 Hv1. cbv zeta. rewrite bind_unfold, run_command_eq.
    destruct (subprocess_run_flags sc VenvCreate st1) as [Hc2 Hv2].
    destruct (subprocess_run sc VenvCreate st1) as [[a|e] st2]; simpl in *.
    - done.
    - rewrite Hv2, Hv1. done. }
  destruct (bool_decide (is_Some (disk st !! [VENV_DIR]))).
  - rewrite bind_unfold. unfold try_except, shutil_rmtree. py_exec.
    destruct (sc_rmtree_ok sc RmStale); simpl; [|by rewrite Hv].
    apply (Hrest (with_disk (rmtree VENV_DIR) (add_event (EvRmtree RmStale true) st))).
    done.
  - rewrite bind_unfold. simpl. by apply (Hrest st).
Qed.

Lemma venv_created_iff_creation_returns_witness :
  (create_virtual_environment creation_fails (initial_state report_only)).1 = Return tt ↔
  venv_created (create_virtual_environment creation_fails (initial_state report_only)).2 = true.
Proof.
  apply (venv_created_iff_creation_returns creation_fails (initial_state report_only)).
  reflexivity.
Defined.



Section MoreSteps.

Context (sc : scenario).


(** The loop over the manifest: packages are installed in order, and the
    first failure ends the loop. *)
Lemma install_loop (pip : list string) (l : list string) st :
  ∃ evs,
    trace (for_each l (λ package,
             run_command sc (PipInstall pip package) ;; mret tt) st).2 =
      trace st ++ evs ∧
    List.filter is_run evs =
      map EvRun (until_first_failure sc (map (PipInstall pip) l)) ∧
    ((for_each l (λ package,
        run_command sc (PipInstall pip package) ;; mret tt) st).1 = Return tt ↔
     forallb (proc_ok sc) (map (PipInstall pip) l) = true).
Proof.
  revert st. induction l as [|package l IH]; intros st.
  - exists []. simpl. rewrite app_nil_r. by split_and!.
  - cbn [for_each map until_first_failure forallb].
    rewrite !bind_unfold, run_command_eq.
    destruct (subprocess_run_summary sc (PipInstall pip package) st)
      as (evs1 & Htr1 & Hf1 & _ & Hr1).
    pose proof (eq_refl (proc_ok sc (PipInstall pip package))) as Hpk.
    unfold proc_ok at 2 in Hpk.
    destruct (subprocess_run sc (PipInstall pip package) st) as [[out|e] st1];
      simpl in Htr1, Hr1;
      destruct (sc_proc sc (PipInstall pip package)); simplify_eq;
      rewrite Hpk; cbn [fst snd mret Py_ret andb].
    + destruct (IH st1) as (evs2 & Htr2 & Hruns & Hiff).
      exists (EvRun (PipInstall pip package) :: evs1 ++ evs2).
      rewrite Htr2, Htr1, <- app_assoc. simpl.
      by rewrite List.filter_app, Hf1, Hruns.
    + exists (EvRun (PipInstall pip package) :: evs1). simpl. by rewrite Hf1.
    + exists (EvRun (PipInstall pip package) :: evs1). simpl. by rewrite Hf1.
    + exists (EvRun (PipInstall pip package) :: evs1). simpl. by rewrite Hf1.
Qed.

End MoreSteps.

(** [install_dependencies] upgrades the package manager first and then
    installs the packages in manifest order; each command is started only
    after its predecessor ended with status zero, and the function returns
    exactly when all of them did. *)
Theorem install_in_order_until_first_failure (sc : scenario) (st : state) :
  List.filter is_run (new_events st (install_dependencies sc st).2) =
    map EvRun (until_first_failure sc (install_commands (sc_platform sc))) ∧
  ((install_dependencies sc st).1 = Return tt ↔
   forallb (proc_ok sc) (install_commands (sc_platform sc)) = true).
Proof.
  unfold install_dependencies, install_commands. cbv zeta.
  set (pip := get_venv_executable (sc_platform sc) "pip").
  cbn [until_first_failure forallb].
  rewrite !bind_unfold, run_command_eq.
  destruct (subprocess_run_summary sc (PipUpgrade pip) st)
    as (evs1 & Htr1 & Hf1 & _ & Hr1).
  pose proof (eq_refl (proc_ok sc (PipUpgrade pip))) as Hpk.
  unfold proc_ok at 2 in Hpk.
  destruct (subprocess_run sc (PipUpgrade pip) st) as [[out|e] st1];
    simpl in Htr1, Hr1;
    destruct (sc_proc sc (PipUpgrade pip)); simplify_eq;
    rewrite Hpk; cbn [fst snd mret Py_ret andb];
    try (rewrite (new_events_app _ _ _ Htr1); simpl; by rewrite Hf1).
  destruct (install_loop sc pip REQUIRED_PACKAGES st1) as (evs2 & Htr2 & Hruns & Hiff).
  rewrite (new_events_app _ _ (EvRun (PipUpgrade pip) :: evs1 ++ evs2))
    by by rewrite Htr2, Htr1, <- app_assoc.
  simpl. by rewrite List.filter_app, Hf1, Hruns.
Qed.




(** [run_command] ends exactly as [subprocess.run] does: its [except]
    clauses report and re-raise, so a result is returned as it is and
    [CalledProcessError], [FileNotFoundError], any other exception and the
    [SystemExit] of the interrupt handler all reach the caller unchanged, in
    the same state. *)
Theorem run_command_reraises (sc : scenario) (c : command) (st : state) :
  run_command sc c st = subprocess_run sc c st ∧
  (run_command sc c st).1 =
    match sc_proc sc c with
    | ProcOk => Return (sc_dpkg_stdout sc)
    | ProcNonzero => Raise CalledProcessError
    | ProcLaunch e => Raise (launch_exn e)
    | ProcSigint => Raise (SystemExit 0)
    end.
Proof.
  rewrite run_command_eq. split; [done|].
  by destruct (subprocess_run_summary sc c st) as (evs & _ & _ & _ & ->).
Qed.

Section AdvisoryBehaviour.

Context (sc : scenario).

(** The question itself. *)
Lemma ask_continue st :
  ∃ evs,
    trace ((response ← input sc AskContinue;
            if negb (String.eqb (Str.lower response) "y")
            then sys_exit 1 else mret tt) st).2 =
      trace st ++ EvInput AskContinue :: evs ∧
    (((response ← input sc AskContinue;
       if negb (String.eqb (Str.lower response) "y")
       then sys_exit 1 else mret tt) st).1 = Return tt ↔
     ∃ r, sc_input sc AskContinue = Answer r ∧ (r = "y" ∨ r = "Y")).
Proof.
  rewrite !bind_unfold. unfold input. py_exec.
  destruct (sc_input sc AskContinue) as [r| |] eqn:Hans.
  - exists []. cbn beta iota.
    destruct (negb (String.eqb (Str.lower r) "y")) eqn:Hdecl; simpl.
    + split; [done|]. apply declined_iff in Hdecl.
      split; [done|]. intros (r' & [= <-] & Hr). tauto.
    + split; [done|]. split; [|done]. intros _. exists r. split; [done|].
      apply negb_false_iff, String.eqb_eq in Hdecl. by apply lower_is_y.
  - exists []. simpl. split; [done|]. split; [done|]. by intros (r' & [=] & _).
  - rewrite signal_handler_eq. cbn beta iota.
    destruct (handler_state_trace sc (add_event (EvInput AskContinue) st))
      as (evs & Htr & _).
    exists (EvSigint :: evs). simpl in *. rewrite Htr, <- app_assoc.
    split; [done|]. split; [done|]. by intros (r' & [=] & _).
Qed.

Lemma check_system_packages_unfold st :
  check_system_packages sc st =
  match sc_platform sc with
  | Linux =>
      match subprocess_run sc DpkgStatus st with
      | (Return stdout, st1) =>
          if Str.contains "Status: install ok installed" stdout
          then (Return tt, st1)
          else (response ← input sc AskContinue;
                if negb (String.eqb (Str.lower response) "y")
                then sys_exit 1 else mret tt) st1
      | (Raise e, st1) =>
          match e with
          | CalledProcessError | FileNotFoundError =>
              (response ← input sc AskContinue;
               if negb (String.eqb (Str.lower response) "y")
               then sys_exit 1 else mret tt) st1
          | _ => (Raise e, st1)
          end
      end
  | _ =>
      (response ← input sc AskContinue;
       if negb (String.eqb (Str.lower response) "y")
       then sys_exit 1 else mret tt) st
  end.
Proof.
  unfold check_system_packages.
  destruct (sc_platform sc); try reflexivity.
  rewrite bind_unfold. unfold try_except. rewrite bind_unfold, run_command_eq.
  destruct (subprocess_run sc DpkgStatus st) as [[out|e] st1]; cbn [mret Py_ret].
  - by destruct (Str.contains _ out).
  - by destruct e.
Qed.

Lemma advisory_check_summary st :
  ∃ evs,
    trace (check_system_packages sc st).2 = trace st ++ evs ∧
    (EvInput AskContinue ∈ evs ↔ advisory_asks sc = true) ∧
    ((check_system_packages sc st).1 = Return tt ↔
     (sc_platform sc = Linux ∧ sc_proc sc DpkgStatus = ProcOk ∧
      Str.contains "Status: install ok installed" (sc_dpkg_stdout sc) = true) ∨
     (advisory_asks sc = true ∧
      ∃ r, sc_input sc AskContinue = Answer r ∧ (r = "y" ∨ r = "Y"))).
Proof.
  assert (∀ st1 pre, trace st1 = trace st ++ pre →
    ∃ evs,
      trace ((response ← input sc AskContinue;
              if negb (String.eqb (Str.lower response) "y")
              then sys_exit 1 else mret tt) st1).2 = trace st ++ evs ∧
      (EvInput AskContinue ∈ evs ↔ true = true) ∧
      (((response ← input sc AskContinue;
         if negb (String.eqb (Str.lower response) "y")
         then sys_exit 1 else mret tt) st1).1 = Return tt ↔
       ∃ r, sc_input sc AskContinue = Answer r ∧ (r = "y" ∨ r = "Y"))) as Hask.
  { intros st1 pre Hpre. destruct (ask_continue st1) as (evs & Htr & Hres).
    exists (pre ++ EvInput AskContinue :: evs).
    rewrite Htr, Hpre, <- app_assoc. split_and!; [done| |done].
    split; [done|]. intros _. apply elem_of_app. right. apply list_elem_of_here. }
  rewrite check_system_packages_unfold. unfold advisory_asks.
  destruct (sc_platform sc) eqn:Hpf.
  2-4: destruct (Hask st []) as (evs & Htr & Hin & Hres); [by rewrite app_nil_r|];
       exists evs; split_and!; [done | done |];
       rewrite Hres; split; [intros H; right; by split | intros [(? & _)|[_ ?]]; done].
  destruct (subprocess_run_summary sc DpkgStatus st) as (evs1 & Htr1 & _ & Hni1 & Hr1).
  assert (EvInput AskContinue ∉ EvRun DpkgStatus :: evs1) as Hni.
  { intros [H|H]%elem_of_cons; [done | by apply (Hni1 AskContinue)]. }
  destruct (subprocess_run sc DpkgStatus st) as [[out|e] st1];
    simpl in Htr1, Hr1;
    destruct (sc_proc sc DpkgStatus) as [| |err|]; simplify_eq;
    cbn [mret Py_ret launch_exn].
  - destruct (Str.contains _ (sc_dpkg_stdout sc)) eqn:Hc; cbn [negb].
    + exists (EvRun DpkgStatus :: evs1). split_and!; [done | |].
      * split; [done | done].
      * split; [intros _; by left | done].
    + destruct (Hask st1 (EvRun DpkgStatus :: evs1) Htr1) as (evs & Htr & Hin & Hres).
      exists evs. split_and!; [done | done |].
      rewrite Hres. split; [intros H; right; by split | intros [(_ & _ & ?)|[_ ?]]; done].
  - destruct (Hask st1 (EvRun DpkgStatus :: evs1) Htr1) as (evs & Htr & Hin & Hres).
    exists evs. split_and!; [done | done |].
    rewrite Hres. split; [intros H; right; by split | intros [(_ & ? & _)|[_ ?]]; done].
  - destruct err; cbn [mret Py_ret launch_exn].
    + destruct (Hask st1 (EvRun DpkgStatus :: evs1) Htr1) as (evs & Htr & Hin & Hres).
      exists evs. split_and!; [done | done |].
      rewrite Hres. split; [intros H; right; by split | intros [(_ & ? & _)|[_ ?]]; done].
    + exists (EvRun DpkgStatus :: evs1). split_and!; [done | done |].
      split; [done | intros [(_ & ? & _)|[? _]]; done].
    + exists (EvRun DpkgStatus :: evs1). split_and!; [done | done |].
      split; [done | intros [(_ & ? & _)|[? _]]; done].
  - exists (EvRun DpkgStatus :: evs1). split_and!; [done | done |].
    split; [done | intros [(_ & ? & _)|[? _]]; done].
Qed.

End AdvisoryBehaviour.

(** The advisory check asks its question on every platform but Linux, and on
    Linux when [dpkg] did not confirm the library, ended with a non-zero
    status, or was not found; a [dpkg] that cannot be started for another
    reason, or an interrupt, ends the check without a question.  The check
    returns exactly when [dpkg] confirmed the library or the user answered
    [y] or [Y]. *)
Theorem advisory_check_behaviour (sc : scenario) (st : state) :
  (EvInput AskContinue ∈ new_events st (check_system_packages sc st).2 ↔
   advisory_asks sc = true) ∧
  ((check_system_packages sc st).1 = Return tt ↔
   (sc_platform sc = Linux ∧ sc_proc sc DpkgStatus = ProcOk ∧
    Str.contains "Status: install ok installed" (sc_dpkg_stdout sc) = true) ∨
   (advisory_asks sc = true ∧
    ∃ r, sc_input sc AskContinue = Answer r ∧ (r = "y" ∨ r = "Y"))).
Proof.
  destruct (advisory_check_summary sc st) as (evs & Htr & Hin & Hres).
  by rewrite (new_events_app _ _ evs Htr).
Qed.

(** ** Whole runs: what a return and what a trace tell *)

Section Inversion.

Context {A B : Type}.

Lemma bind_returns (m : Py A) (k : A → Py B) st b st' :
  (m ≫= k) st = (Return b, st') →
  ∃ a st1, m st = (Return a, st1) ∧ k a st1 = (Return b, st').
Proof.
  rewrite bind_unfold. destruct (m st) as [[a|e] st1]; [eauto | done].
Qed.

End Inversion.

Lemma validate_markdown_file_returns filepath st md_path st1 :
  validate_markdown_file filepath st = (Return md_path, st1) →
  md_path = Pathlib.Path filepath ∧ st1 = st ∧
  ∃ content, disk st !! Pathlib.Path filepath = Some (File content true).
Proof.
  unfold validate_markdown_file. py_exec.
  destruct (disk st !! Pathlib.Path filepath) as [[c [|]| |]|]; simpl;
    intros [=]; subst; eauto.
Qed.

Lemma main_returns_body sc st st' :
  main sc st = (Return tt, st') →
  ∃ prog md_file_arg,
    sc_argv sc = [prog; md_file_arg] ∧
    main_body sc md_file_arg st = (Return tt, st').
Proof.
  unfold main.
  destruct (sc_argv sc) as [|a0 [|a1 [|a2 rest]]]; try done.
  destruct (is_help a1); [done|]. unfold try_except.
  destruct (main_body sc a1 st) as [[[]|e] st1] eqn:Hbody.
  - intros [= <-]. eauto.
  - destruct e; simpl; rewrite ?bind_unfold, ?cleanup_environment_eq; done.
Qed.

(** When [main] returns (rather than leaving through [sys.exit]), its
    argument named a readable regular file and the PDF is on disk at the
    output path derived from it. *)
Theorem normal_return_has_output (sc : scenario) (st st' : state) :
  main sc st = (Return tt, st') →
  ∃ prog md_file_arg content output_pdf_path,
    sc_argv sc = [prog; md_file_arg] ∧
    disk st !! Pathlib.Path md_file_arg = Some (File content true) ∧
    Pathlib.with_suffix (Pathlib.Path md_file_arg) ".pdf" = Some output_pdf_path ∧
    is_Some (disk st' !! output_pdf_path).
Proof.
  intros (prog & arg & Hargv & Hbody)%main_returns_body.
  unfold main_body in Hbody.
  apply bind_returns in Hbody as (md_path & s1 & Hval & Hbody).
  apply validate_markdown_file_returns in Hval as (-> & -> & content & Hfile).
  apply bind_returns in Hbody as (out & s2 & Hsuf & Hbody).
  destruct (Pathlib.with_suffix (Pathlib.Path arg) ".pdf") as [out'|] eqn:Hout;
    [|done].
  injection Hsuf as <- <-.
  do 8 (apply bind_returns in Hbody as (? & ? & _ & Hbody)).
  exists prog, arg, content, out'. split_and!; try done.
  revert Hbody. py_exec.
  destruct (disk _ !! out') eqn:Hlook; intros [=]; subst. eauto.
Qed.

Lemma normal_return_has_output_witness :
  ∃ prog md_file_arg content output_pdf_path,
    sc_argv all_ok = [prog; md_file_arg] ∧
    disk (initial_state report_only) !! Pathlib.Path md_file_arg =
      Some (File content true) ∧
    Pathlib.with_suffix (Pathlib.Path md_file_arg) ".pdf" = Some output_pdf_path ∧
    is_Some (disk (main all_ok (initial_state report_only)).2 !! output_pdf_path).
Proof.
  apply (normal_return_has_output all_ok (initial_state report_only)).
  vm_compute. reflexivity.
Defined.

(** Nothing at all happens -- no question, no subprocess -- unless the script
    was given exactly one argument, not a help flag, that names a readable
    regular file. *)
Theorem nothing_happens_without_valid_input (sc : scenario)
    (d : gmap (list string) node) :
  trace (run sc d).2 ≠ [] →
  ∃ prog md_file_arg content,
    sc_argv sc = [prog; md_file_arg] ∧
    is_help md_file_arg = false ∧
    d !! Pathlib.Path md_file_arg = Some (File content true).
Proof.
  unfold run, main.
  destruct (sc_argv sc) as [|a0 [|a1 [|a2 rest]]]; try done.
  destruct (is_help a1) eqn:Hhelp; [done|].
  destruct (d !! Pathlib.Path a1) as [[c [|]| |]|] eqn:Hlook;
    [intros _; by exists a0, a1, c|..];
    intros Htrace; exfalso; apply Htrace;
    (destruct (validate_rejects sc a1 (initial_state d)) as (e & Hv & Hh);
      [simpl; rewrite Hlook;
       first [by left | right; eexists; split; [done | simpl; auto]]|]);
    unfold try_except, main_body;
    rewrite (bind_raise _ _ _ _ _ Hv), Hh;
    by rewrite bind_unfold, cleanup_environment_eq.
Qed.

Lemma nothing_happens_without_valid_input_witness :
  ∃ prog md_file_arg content,
    sc_argv answers_no = [prog; md_file_arg] ∧
    is_help md_file_arg = false ∧
    report_and_pdf !! Pathlib.Path md_file_arg = Some (File content true).
Proof.
  apply (nothing_happens_without_valid_input answers_no report_and_pdf).
  vm_compute. discriminate.
Defined.

(** ** The successful run *)


Section Success.

Context (sc : scenario).
Hypothesis says_yes :
  ∀ q, ∃ r, sc_input sc q = Answer r ∧ (r = "y" ∨ r = "Y").
Hypothesis commands_ok : ∀ c, sc_proc sc c = ProcOk.
Hypothesis removals_ok : ∀ site, sc_rmtree_ok sc site = true.





End Success.


